(** * NewsWhizz backend (FlaskAPI.py): a shallow embedding and its properties

    The file embeds the three utilities of [FlaskAPI.py] ([fetch_news],
    [summarize_article], [generate_tts]) and the views [/news], [/tts]
    and [/briefing] as functions in a state and exception monad over an
    explicit world: the log of the calls made to the outside (HTTP, chat
    completion, speech synthesis, file system) and the set of files on
    disk.  The outside itself is an environment of oracles, each of
    which sees the log so far; the environment also holds the three
    builtins of the interpreter whose answers depend on its Unicode
    tables ([int], [str.strip], [repr] of a string).  The [/health]
    view is not embedded. *)

From Stdlib Require Import ZArith String Ascii List Bool.
From stdpp Require Import gmap strings list pretty.

Local Open Scope string_scope.
Local Open Scope Z_scope.
Local Open Scope list_scope.

(** ** Python values

    The values that reach the code are JSON documents decoded by
    [resp.json()] and [request.get_json()], and strings built from them.
    JSON numbers are Python [int]s here; floats are outside the model.
    A string is the UTF-8 encoding of a Python [str].  A dictionary is
    an association list in insertion order whose keys are distinct; a
    lookup returns the first binding. *)

#[local] Set Warnings "-register-all".

Inductive pyval : Type :=
| VNone
| VBool (b : bool)
| VInt (n : Z)
| VStr (s : string)
| VList (l : list pyval)
| VDict (d : list (string * pyval)).

(** Exceptions: the class name and [str(e)].  Every exception of the
    model is an instance of [Exception]; interrupts of the interpreter
    ([KeyboardInterrupt], [SystemExit]) are outside it. *)
Record exn : Type := Exn { exn_class : string; exn_msg : string }.

Inductive outcome (A : Type) : Type :=
| Ret (a : A)
| Raise (e : exn).
Arguments Ret {A} a.
Arguments Raise {A} e.

(** The interpreter.  What three builtins answer depends on the
    Unicode tables of the interpreter that runs the program (decimal
    digits and white space of every script, printable code points), so
    they are taken from it as they are: [int(s)] for a [str] in base
    10, [s.strip()], and [repr(s)] for a [str]. *)
Record Builtins : Type := {
  builtin_int : string -> outcome Z;
  builtin_strip : string -> string;
  builtin_repr : string -> string
}.

Module Py.

(** [bool(v)]: the truth value tested by [if], [not], [and], [or]. *)
Definition truthy (v : pyval) : bool :=
  match v with
  | VNone => false
  | VBool b => b
  | VInt n => negb (Z.eqb n 0)
  | VStr s => negb (String.eqb s "")
  | VList l => match l with [] => false | _ => true end
  | VDict d => match d with [] => false | _ => true end
  end.

Definition type_name (v : pyval) : string :=
  match v with
  | VNone => "NoneType"
  | VBool _ => "bool"
  | VInt _ => "int"
  | VStr _ => "str"
  | VList _ => "list"
  | VDict _ => "dict"
  end.

Definition AttributeError (v : pyval) (attr : string) : exn :=
  Exn "AttributeError"
      ("'" +:+ type_name v +:+ "' object has no attribute '" +:+ attr +:+ "'").

(** [str(KeyError(k))] is [repr(k)]; the keys used are plain words. *)
Definition KeyError (k : string) : exn := Exn "KeyError" ("'" +:+ k +:+ "'").

Definition TypeError (msg : string) : exn := Exn "TypeError" msg.

Fixpoint assoc (k : string) (d : list (string * pyval)) : option pyval :=
  match d with
  | [] => None
  | (k', v) :: d' => if String.eqb k k' then Some v else assoc k d'
  end.

(** [d.get(k, default)]; only a [dict] has the method. *)
Definition get (v : pyval) (k : string) (default : pyval) : outcome pyval :=
  match v with
  | VDict d => Ret (match assoc k d with Some x => x | None => default end)
  | _ => Raise (AttributeError v "get")
  end.

(** [d[k]] for a string key. *)
Definition getitem (v : pyval) (k : string) : outcome pyval :=
  match v with
  | VDict d => match assoc k d with
               | Some x => Ret x
               | None => Raise (KeyError k)
               end
  | VList _ => Raise (TypeError "list indices must be integers or slices, not str")
  | VStr _ => Raise (TypeError "string indices must be integers, not 'str'")
  | _ => Raise (TypeError ("'" +:+ type_name v +:+ "' object is not subscriptable"))
  end.

(** [v == s] for a string literal [s]: only a [str] equals a [str]. *)
Definition eq_str (v : pyval) (s : string) : bool :=
  match v with
  | VStr s' => String.eqb s' s
  | _ => false
  end.

(** The characters of a string: every byte that starts a code point,
    with the continuation bytes (binary 10xxxxxx) that follow it. *)
Definition is_continuation (c : ascii) : bool :=
  let n := nat_of_ascii c in Nat.leb 128 n && Nat.ltb n 192.

Fixpoint code_points (cs : list ascii) : list string :=
  match cs with
  | [] => []
  | c :: cs' =>
      let rest := code_points cs' in
      match cs', rest with
      | c' :: _, p :: ps =>
          if is_continuation c' then String c p :: ps else String c "" :: rest
      | _, _ => String c "" :: rest
      end
  end.

(** The elements a [for] loop visits.  A string yields its
    characters, a dictionary its keys. *)
Definition iter (v : pyval) : outcome (list pyval) :=
  match v with
  | VList l => Ret l
  | VStr s => Ret (map VStr (code_points (list_ascii_of_string s)))
  | VDict d => Ret (map (fun kv => VStr (fst kv)) d)
  | _ => Raise (TypeError ("'" +:+ type_name v +:+ "' object is not iterable"))
  end.

(** *** [repr] and [str] *)

(** [repr(v)]: the layout of lists and dictionaries, and the
    interpreter's [repr] of each string in them. *)
Fixpoint repr (py : Builtins) (v : pyval) : string :=
  match v with
  | VNone => "None"
  | VBool b => if b then "True" else "False"
  | VInt n => pretty n
  | VStr s => builtin_repr py s
  | VList l => "[" +:+ String.concat ", " (map (repr py) l) +:+ "]"
  | VDict d =>
      "{" +:+ String.concat ", "
                (map (fun kv => builtin_repr py (fst kv) +:+ ": " +:+ repr py (snd kv)) d)
          +:+ "}"
  end.

(** [str(v)], what an f-string interpolates. *)
Definition str (py : Builtins) (v : pyval) : string :=
  match v with
  | VStr s => s
  | _ => repr py v
  end.

(** [x in l] for a list of strings. *)
Definition in_list (x : string) (l : list string) : bool :=
  existsb (String.eqb x) l.

(** [sep.join(parts)] *)
Definition join (sep : string) (parts : list string) : string :=
  String.concat sep parts.

End Py.

(** ** The world and the environment *)

(** A chat-completion request: [openai.ChatCompletion.create] with one
    user message.  The sampling temperature 0.5 is not part of the record. *)
Record chat_request : Type := ChatRequest {
  chat_model : string;
  chat_prompt : string;
  chat_max_tokens : Z;
  chat_timeout : Z
}.

(** Calls made to the outside, in the order they are made. *)
Inductive event : Type :=
| EvHttpGet (url : string) (timeout : Z)
| EvPrint (line : string)
| EvChat (req : chat_request)
| EvGTTS (text : pyval) (lang : string)
| EvTempFile (path : string)
| EvSave (path : string)
| EvSendFile (path : string)
| EvRemove (path : string)
| EvUuid (id : string).

(** What [requests.get] returns: an object whose [json()] decodes the
    body or raises. *)
Record http_response : Type := HttpResponse { resp_json : outcome pyval }.

(** The outside: the interpreter and the services.  Every service is
    given the log of the calls made so far, so an answer may depend on
    everything that happened before. *)
Record Env : Type := {
  python :> Builtins;
  getenv_NEWS_API_KEY : option string;
  env_requests_get : list event -> string -> Z -> outcome http_response;
  env_chat_create : list event -> chat_request -> outcome pyval;
  env_gtts_init : list event -> pyval -> string -> option exn;
  env_gtts_save : list event -> pyval -> string -> string -> option exn;
  env_tmp_candidates : list event -> list string;
  env_remove_error : list event -> string -> option exn;
  env_uuid4 : list event -> string
}.

Record World : Type := { log : list event; fs : gset string }.

Definition add_event (ev : event) (w : World) : World :=
  {| log := log w ++ [ev]; fs := fs w |}.

Definition set_fs (files : gset string) (w : World) : World :=
  {| log := log w; fs := files |}.

(** ** The monad: state passing with exceptions *)

Definition M (A : Type) : Type := World -> outcome A * World.

Definition ret {A} (a : A) : M A := fun w => (Ret a, w).

Definition raise {A} (e : exn) : M A := fun w => (Raise e, w).

Definition lift {A} (o : outcome A) : M A := fun w => (o, w).

Definition bind {A B} (m : M A) (k : A -> M B) : M B :=
  fun w =>
    match m w with
    | (Ret a, w') => k a w'
    | (Raise e, w') => (Raise e, w')
    end.

(** [try: m except Exception as e: h e] *)
Definition try_except {A} (m : M A) (h : exn -> M A) : M A :=
  fun w =>
    match m w with
    | (Ret a, w') => (Ret a, w')
    | (Raise e, w') => h e w'
    end.

Definition obind {A B} (o : outcome A) (k : A -> outcome B) : outcome B :=
  match o with
  | Ret a => k a
  | Raise e => Raise e
  end.

Notation "'let*' x ':=' m 'in' k" := (bind m (fun x => k))
  (at level 10, x name, m at level 100, k at level 200).
Notation "m ';;' k" := (bind m (fun _ => k))
  (at level 100, k at level 200, right associativity).
Notation "'let?' x ':=' o 'in' k" := (obind o (fun x => k))
  (at level 10, x name, o at level 100, k at level 200).

Fixpoint for_each {A B} (f : A -> M B) (l : list A) : M (list B) :=
  match l with
  | [] => ret []
  | a :: l' =>
      let* b := f a in
      let* bs := for_each f l' in
      ret (b :: bs)
  end.

(** The events of one kind in a log. *)
Definition http_calls (l : list event) : list string :=
  omap (fun ev => match ev with EvHttpGet url _ => Some url | _ => None end) l.

Definition tts_calls (l : list event) : list (pyval * string) :=
  omap (fun ev => match ev with EvGTTS t lang => Some (t, lang) | _ => None end) l.

Definition is_synthesis_event (ev : event) : bool :=
  match ev with
  | EvGTTS _ _ | EvTempFile _ | EvSave _ => true
  | _ => false
  end.

(** ** FlaskAPI.py *)

(** [LANG_MAP = {"English": "en", "Tamil": "ta", "Hindi": "hi"}] *)
Definition LANG_MAP : gmap string string :=
  {[ "English" := "en"; "Tamil" := "ta"; "Hindi" := "hi" ]}.

Definition valid_categories : list string :=
  ["general"; "business"; "technology"; "sports"; "entertainment"; "science"; "health"].

Definition DEFAULT_NEWS_API_KEY : string := "809a78470dbf4902bcbba81cae58b192".

(** The body of a response and the response object of the framework:
    a JSON document, or a file handed over by [send_file].  [on_close]
    holds the functions registered with [call_on_close]. *)
Inductive body : Type :=
| JsonBody (payload : pyval)
| FileBody (path : string) (mimetype : string).

Record response : Type := Response {
  status : Z;
  resp_body : body;
  headers : list (string * string);
  on_close : list (M unit)
}.

Definition jsonify (payload : pyval) (code : Z) : response :=
  Response code (JsonBody payload) [] [].

(** [os.path.basename]: what follows the last slash. *)
Fixpoint basename_from (cs acc : list ascii) : list ascii :=
  match cs with
  | [] => acc
  | c :: cs' =>
      if Ascii.eqb c "/"%char then basename_from cs' []
      else basename_from cs' (acc ++ [c])
  end.

Definition basename (path : string) : string :=
  string_of_list_ascii (basename_from (list_ascii_of_string path) []).

(** [request.args.get(k, default)]: the first value given for [k]. *)
Fixpoint args_get (args : list (string * string)) (k : string) : option string :=
  match args with
  | [] => None
  | (k', v) :: args' => if String.eqb k k' then Some v else args_get args' k
  end.

(** [key in LANG_MAP] *)
Definition in_LANG_MAP (language : string) : bool :=
  match LANG_MAP !! language with Some _ => true | None => false end.

(** [LANG_MAP.get(language, default)].  A list or a dictionary is not
    hashable; every other key that is not a string equals no key. *)
Definition LANG_MAP_get (language : pyval) (default : string) : outcome string :=
  match language with
  | VStr s => Ret (match LANG_MAP !! s with Some code => code | None => default end)
  | VList _ => Raise (Py.TypeError "unhashable type: 'list'")
  | VDict _ => Raise (Py.TypeError "unhashable type: 'dict'")
  | _ => Ret default
  end.

(** Attribute access on a response object of the chat client: a missing
    field raises [AttributeError] carrying the field name. *)
Definition obj_attr (v : pyval) (name : string) : outcome pyval :=
  match v with
  | VDict d => match Py.assoc name d with
               | Some x => Ret x
               | None => Raise (Exn "AttributeError" name)
               end
  | _ => Raise (Py.AttributeError v name)
  end.

(** [v[0]] *)
Definition index0 (v : pyval) : outcome pyval :=
  match v with
  | VList (x :: _) => Ret x
  | VList [] => Raise (Exn "IndexError" "list index out of range")
  | VStr s => match Py.code_points (list_ascii_of_string s) with
              | p :: _ => Ret (VStr p)
              | [] => Raise (Exn "IndexError" "string index out of range")
              end
  | VDict _ => Raise (Exn "KeyError" "0")
  | _ => Raise (Py.TypeError ("'" +:+ Py.type_name v +:+ "' object is not subscriptable"))
  end.

(** [v.strip()] *)
Definition str_strip (py : Builtins) (v : pyval) : outcome string :=
  match v with
  | VStr s => Ret (builtin_strip py s)
  | _ => Raise (Py.AttributeError v "strip")
  end.

(** [response.choices[0].message["content"].strip()] *)
Definition completion_text (py : Builtins) (resp : pyval) : outcome string :=
  let? choices := obj_attr resp "choices" in
  let? choice := index0 choices in
  let? message := obj_attr choice "message" in
  let? content := Py.getitem message "content" in
  str_strip py content.

(** The prompt of [summarize_article], an f-string over three quotes. *)
Definition summary_prompt (py : Builtins) (article_text language : pyval) : string :=
  "
    Summarize the following news article into:
    1. A short paragraph of 2–3 complete sentences.
    2. Two bullet points highlighting the most important details.

    The summary must be in " +:+ Py.str py language +:+ ".

    Article: " +:+ Py.str py article_text +:+ "
    ".

(** The content handed to the summarizer by the listing view:
    [article.get("description") or article.get("content") or title]. *)
Definition listing_content (article title : pyval) : outcome pyval :=
  let? description := Py.get article "description" VNone in
  if Py.truthy description then Ret description
  else
    let? content := Py.get article "content" VNone in
    if Py.truthy content then Ret content else Ret title.

(** The content handed to the summarizer by the briefing view:
    [a.get("description") or a.get("content") or a["title"]]. *)
Definition briefing_content (a : pyval) : outcome pyval :=
  let? description := Py.get a "description" VNone in
  if Py.truthy description then Ret description
  else
    let? content := Py.get a "content" VNone in
    if Py.truthy content then Ret content else Py.getitem a "title".

Section FlaskAPI.

Context (env : Env).

(** [NEWS_API_KEY = os.getenv("NEWS_API_KEY") or "809a..."] *)
Definition NEWS_API_KEY : string :=
  match getenv_NEWS_API_KEY env with
  | Some key => if String.eqb key "" then DEFAULT_NEWS_API_KEY else key
  | None => DEFAULT_NEWS_API_KEY
  end.

(** *** The calls to the outside *)

Definition print (line : string) : M unit :=
  fun w => (Ret tt, add_event (EvPrint line) w).

Definition requests_get (url : string) (timeout : Z) : M http_response :=
  fun w => (env_requests_get env (log w) url timeout,
            add_event (EvHttpGet url timeout) w).

Definition ChatCompletion_create (req : chat_request) : M pyval :=
  fun w => (env_chat_create env (log w) req, add_event (EvChat req) w).

Definition uuid4 : M string :=
  fun w => let id := env_uuid4 env (log w) in (Ret id, add_event (EvUuid id) w).

(** [gTTS(text, lang=lang_code)] *)
Definition gTTS (text : pyval) (lang : string) : M unit :=
  fun w =>
    (match env_gtts_init env (log w) text lang with
     | Some e => Raise e
     | None => Ret tt
     end, add_event (EvGTTS text lang) w).

(** [tempfile.NamedTemporaryFile(delete=False, suffix=suffix)]: the
    first candidate name that is free is created on disk. *)
Definition NamedTemporaryFile (suffix : string) : M string :=
  fun w =>
    let names := map (fun stem => stem +:+ suffix) (env_tmp_candidates env (log w)) in
    match List.find (fun name => negb (bool_decide (name ∈ fs w))) names with
    | Some name =>
        (Ret name, add_event (EvTempFile name) (set_fs (fs w ∪ {[ name ]}) w))
    | None =>
        (Raise (Exn "FileExistsError"
                  "[Errno 17] No usable temporary file name found"), w)
    end.

(** [tts.save(path)]: the file is opened for writing, then filled. *)
Definition tts_save (text : pyval) (lang path : string) : M unit :=
  fun w =>
    (match env_gtts_save env (log w) text lang path with
     | Some e => Raise e
     | None => Ret tt
     end, add_event (EvSave path) (set_fs (fs w ∪ {[ path ]}) w)).

(** [os.remove(path)] *)
Definition os_remove (path : string) : M unit :=
  fun w =>
    if bool_decide (path ∈ fs w) then
      match env_remove_error env (log w) path with
      | Some e => (Raise e, add_event (EvRemove path) w)
      | None => (Ret tt, add_event (EvRemove path) (set_fs (fs w ∖ {[ path ]}) w))
      end
    else
      (Raise (Exn "FileNotFoundError"
                ("[Errno 2] No such file or directory: " +:+ builtin_repr env path)),
       add_event (EvRemove path) w).

(** [make_response(send_file(path, mimetype=mimetype))] *)
Definition send_file (path mimetype : string) : M response :=
  fun w =>
    if bool_decide (path ∈ fs w) then
      (Ret (Response 200 (FileBody path mimetype) [] []),
       add_event (EvSendFile path) w)
    else
      (Raise (Exn "FileNotFoundError"
                ("[Errno 2] No such file or directory: " +:+ builtin_repr env path)),
       add_event (EvSendFile path) w).

(** *** Utility: fetch news *)

Definition top_headlines_url (category region limit : pyval) : string :=
  "https://newsapi.org/v2/top-headlines?"
  +:+ "country=" +:+ Py.str env region +:+ "&category=" +:+ Py.str env category
  +:+ "&pageSize=" +:+ Py.str env limit +:+ "&apiKey=" +:+ NEWS_API_KEY.

Definition everything_url (category limit : pyval) : string :=
  let q := Py.str env category +:+ " news" in
  "https://newsapi.org/v2/everything?"
  +:+ "q=" +:+ q +:+ "&language=en&pageSize=" +:+ Py.str env limit
  +:+ "&apiKey=" +:+ NEWS_API_KEY.

(** The [else] branch of [fetch_news]. *)
Definition fetch_news_fallback (category limit : pyval) : M pyval :=
  let* resp2 := requests_get (everything_url category limit) 10 in
  let* data2 := lift (resp_json resp2) in
  lift (Py.get data2 "articles" (VList [])).

Definition fetch_news (category region limit : pyval) : M pyval :=
  let url := top_headlines_url category region limit in
  try_except
    (let* resp := requests_get url 10 in
     let* data := lift (resp_json resp) in
     let* status := lift (Py.get data "status" VNone) in
     if Py.eq_str status "ok" then
       let* articles := lift (Py.get data "articles" VNone) in
       if Py.truthy articles then lift (Py.getitem data "articles")
       else fetch_news_fallback category limit
     else fetch_news_fallback category limit)
    (fun e =>
       print ("Error fetching news: " +:+ exn_msg e) ;;
       ret (VList [])).

(** *** Utility: summarize with GPT *)

Definition summarize_article (article_text language : pyval) : M string :=
  let prompt := summary_prompt env article_text language in
  try_except
    (let* response :=
       ChatCompletion_create (ChatRequest "gpt-3.5-turbo" prompt 600 30) in
     lift (completion_text env response))
    (fun e => ret ("⚠️ Error generating summary: " +:+ exn_msg e)).

(** *** Utility: generate TTS.  [None] is Python's [None]. *)

Definition generate_tts (text : pyval) (lang_code : string) : M (option string) :=
  try_except
    (gTTS text lang_code ;;
     let* temp_file := NamedTemporaryFile ".mp3" in
     tts_save text lang_code temp_file ;;
     ret (Some temp_file))
    (fun e =>
       print ("TTS failed: " +:+ exn_msg e) ;;
       ret None).

(** [not temp_file_path] *)
Definition path_falsy (p : option string) : bool :=
  match p with
  | None => true
  | Some s => String.eqb s ""
  end.

(** The function registered with [call_on_close]:
    [try: os.remove(temp_file_path) except: pass]. *)
Definition cleanup (temp_file_path : string) : M unit :=
  try_except (os_remove temp_file_path) (fun _ => ret tt).

(** [Response.close()] runs the registered functions in order. *)
Fixpoint run_hooks (hooks : list (M unit)) : M unit :=
  match hooks with
  | [] => ret tt
  | h :: hooks' => h ;; run_hooks hooks'
  end.

Definition close_response (r : response) : M unit := run_hooks (on_close r).

(** What the server does once the body has been sent or the transport
    has failed: it closes the iterable the response handed to it.  For
    a response built from data that closes the response.  The response
    of [send_file] is passed through ([direct_passthrough]): the server
    is handed the file wrapper itself, closing it closes the file, and
    [Response.close()] is never called. *)
Definition finish_response (r : response) : M unit :=
  match resp_body r with
  | JsonBody _ => close_response r
  | FileBody _ _ => ret tt
  end.

Definition set_header (k v : string) (r : response) : response :=
  Response (status r) (resp_body r) (headers r ++ [(k, v)]) (on_close r).

Definition call_on_close (f : M unit) (r : response) : response :=
  Response (status r) (resp_body r) (headers r) (on_close r ++ [f]).

(** *** API routes *)

(** One turn of the loop of [get_news]. *)
Definition process_article (language : string) (article : pyval) : M pyval :=
  let* title := lift (Py.get article "title" (VStr "Untitled")) in
  let* source_obj := lift (Py.get article "source" (VDict [])) in
  let* source := lift (Py.get source_obj "name" (VStr "Unknown")) in
  let* content := lift (listing_content article title) in
  let* summary := summarize_article content (VStr language) in
  let* id := uuid4 in
  let* url := lift (Py.get article "url" VNone) in
  let* image := lift (Py.get article "urlToImage" VNone) in
  let* publishedAt := lift (Py.get article "publishedAt" VNone) in
  ret (VDict [("id", VStr id); ("title", title); ("source", source);
              ("summary", VStr summary); ("sentiment", VStr "Neutral");
              ("url", url); ("image", image); ("publishedAt", publishedAt)]).

(** [int(request.args.get("limit", 5))] *)
Definition parse_limit (args : list (string * string)) : outcome Z :=
  match args_get args "limit" with
  | Some s => builtin_int env s
  | None => Ret 5
  end.

(** [GET /news]; [args] is [request.args]. *)
Definition get_news (args : list (string * string)) : M response :=
  try_except
    (let category := default "general" (args_get args "category") in
     let region := default "in" (args_get args "region") in
     let language := default "English" (args_get args "language") in
     let* limit := lift (parse_limit args) in
     if negb (Py.in_list category valid_categories) then
       ret (jsonify (VDict [("error", VStr "Invalid category")]) 400)
     else if negb (in_LANG_MAP language) then
       ret (jsonify (VDict [("error", VStr "Unsupported language")]) 400)
     else
       let* articles := fetch_news (VStr category) (VStr region) (VInt limit) in
       if negb (Py.truthy articles) then
         ret (jsonify (VDict [("message", VStr "No news found");
                              ("articles", VList [])]) 200)
       else
         let* items := lift (Py.iter articles) in
         let* processed_articles := for_each (process_article language) items in
         ret (jsonify (VDict [("region", VStr region);
                              ("category", VStr category);
                              ("language", VStr language);
                              ("total", VInt (Z.of_nat (length processed_articles)));
                              ("articles", VList processed_articles)]) 200))
    (fun e => ret (jsonify (VDict [("error", VStr (exn_msg e))]) 500)).

(** The tail shared by [/tts] and [/briefing]: serve the file, set one
    header, register the cleanup. *)
Definition audio_response (temp_file_path : string) (header : string * string)
  : M response :=
  let* response := send_file temp_file_path "audio/mp3" in
  let response := set_header (fst header) (snd header) response in
  ret (call_on_close (cleanup temp_file_path) response).

(** [POST /tts]; [data] is [request.get_json()]. *)
Definition get_tts (data : pyval) : M response :=
  let* text := lift (Py.get data "text" VNone) in
  let* language := lift (Py.get data "language" (VStr "English")) in
  if negb (Py.truthy text) then
    ret (jsonify (VDict [("error", VStr "Missing 'text' in request")]) 400)
  else
    let* lang_code := lift (LANG_MAP_get language "en") in
    let* temp_file_path := generate_tts text lang_code in
    match temp_file_path with
    | Some path =>
        if path_falsy temp_file_path then
          ret (jsonify (VDict [("error", VStr "TTS generation failed")]) 500)
        else audio_response path ("X-Audio-File", basename path)
    | None => ret (jsonify (VDict [("error", VStr "TTS generation failed")]) 500)
    end.

(** One element of the list comprehension of [daily_briefing]. *)
Definition briefing_summary (language : pyval) (a : pyval) : M string :=
  let* content := lift (briefing_content a) in
  summarize_article content language.

(** [daily_briefing] from the test of [articles] on. *)
Definition briefing_of_articles (category region language articles : pyval)
  : M response :=
  if negb (Py.truthy articles) then
    ret (jsonify (VDict [("error", VStr "No articles available for briefing")]) 400)
  else
    let* items := lift (Py.iter articles) in
    let* summaries := for_each (briefing_summary language) items in
    let combined_summary := Py.join " " summaries in
    let intro := "Good morning! Here are today's top " +:+ Py.str env category
                 +:+ " news from " +:+ Py.str env region +:+ ". " in
    let full_text := intro +:+ combined_summary in
    let* lang_code := lift (LANG_MAP_get language "en") in
    let* temp_file_path := generate_tts (VStr full_text) lang_code in
    match temp_file_path with
    | Some path =>
        if path_falsy temp_file_path then
          ret (jsonify (VDict [("error", VStr "Failed to generate audio briefing")]) 500)
        else audio_response path ("X-Audio-Type", "daily-briefing")
    | None =>
        ret (jsonify (VDict [("error", VStr "Failed to generate audio briefing")]) 500)
    end.

(** [POST /briefing]; [data] is [request.get_json()]. *)
Definition daily_briefing (data : pyval) : M response :=
  let* category := lift (Py.get data "category" (VStr "general")) in
  let* region := lift (Py.get data "region" (VStr "in")) in
  let* language := lift (Py.get data "language" (VStr "English")) in
  let* limit := lift (Py.get data "limit" (VInt 5)) in
  let* articles := fetch_news category region limit in
  briefing_of_articles category region language articles.

End FlaskAPI.

(** ** Vocabulary of the properties *)

(** The events a computation added to the log. *)
Definition events_since (w w' : World) : list event :=
  drop (length (log w)) (log w').

(** What a reply decodes to: [requests.get(url).json()]. *)
Definition decoded (reply : outcome http_response) : outcome pyval :=
  match reply with
  | Ret resp => resp_json resp
  | Raise e => Raise e
  end.

(** A call to the provider fails when the request or the decoding of
    its body raises. *)
Definition call_fails (reply : outcome http_response) : bool :=
  match decoded reply with
  | Ret _ => false
  | Raise _ => true
  end.

(** The reply to the primary call of [fetch_news] made in world [w],
    and the reply to the fallback call that follows it. *)
Definition primary_reply (env : Env) (category region limit : pyval) (w : World)
  : outcome http_response :=
  env_requests_get env (log w) (top_headlines_url env category region limit) 10.

Definition fallback_reply (env : Env) (category region limit : pyval) (w : World)
  : outcome http_response :=
  env_requests_get env
    (log w ++ [EvHttpGet (top_headlines_url env category region limit) 10])
    (everything_url env category limit) 10.

(** The status field of a decoded response is the string "ok". *)
Definition status_ok (d : list (string * pyval)) : bool :=
  match Py.assoc "status" d with
  | Some (VStr s) => String.eqb s "ok"
  | _ => false
  end.

(** The articles list of a decoded response, when it has one. *)
Definition articles_list (d : list (string * pyval)) : option (list pyval) :=
  match Py.assoc "articles" d with
  | Some (VList l) => Some l
  | _ => None
  end.

Definition articles_empty_or_absent (d : list (string * pyval)) : bool :=
  match articles_list d with
  | Some (_ :: _) => false
  | _ => true
  end.

(** The articles field, when present, is a list (or null). *)
Definition articles_field_typed (d : list (string * pyval)) : Prop :=
  match Py.assoc "articles" d with
  | None | Some VNone | Some (VList _) => True
  | Some _ => False
  end.

(** The fallback policy in the words of the specification. *)
Definition needs_fallback (d : list (string * pyval)) : bool :=
  negb (status_ok d) || articles_empty_or_absent d.

(** The query parameters of [/news] with their defaults. *)
Definition news_category (args : list (string * string)) : string :=
  default "general" (args_get args "category").

Definition news_region (args : list (string * string)) : string :=
  default "in" (args_get args "region").

Definition news_language (args : list (string * string)) : string :=
  default "English" (args_get args "language").

(** The outcome of the [try] block of [summarize_article] in a world
    whose log is [l]. *)
Definition chat_outcome (env : Env) (l : list event) (req : chat_request)
  : outcome string :=
  let? response := env_chat_create env l req in
  completion_text env response.

Definition summary_request (env : Env) (article_text language : pyval) : chat_request :=
  ChatRequest "gpt-3.5-turbo" (summary_prompt env article_text language) 600 30.

(** The request the summarizer is to make for a text and a language,
    spelled out: the model, the prompt, at most 600 tokens, a time-out
    of 30. *)
Definition request_for (language text : string) : chat_request :=
  ChatRequest "gpt-3.5-turbo"
    ("
    Summarize the following news article into:
    1. A short paragraph of 2–3 complete sentences.
    2. Two bullet points highlighting the most important details.

    The summary must be in " +:+ language +:+ ".

    Article: " +:+ text +:+ "
    ") 600 30.

(** The fields of the body of [/briefing] with their defaults. *)
Definition briefing_category (d : list (string * pyval)) : pyval :=
  default (VStr "general") (Py.assoc "category" d).

Definition briefing_region (d : list (string * pyval)) : pyval :=
  default (VStr "in") (Py.assoc "region" d).

Definition briefing_language (d : list (string * pyval)) : pyval :=
  default (VStr "English") (Py.assoc "language" d).

Definition briefing_limit (d : list (string * pyval)) : pyval :=
  default (VInt 5) (Py.assoc "limit" d).

(** A computation only appends to the log, and every event it appends
    satisfies [P]. *)
Definition emits {A} (P : event -> Prop) (m : M A) : Prop :=
  forall w, exists new, log (snd (m w)) = log w ++ new /\ Forall P new.

(** Every response the computation returns has a status code in [S]. *)
Definition answers (S : Z -> Prop) (m : M response) : Prop :=
  forall w r w', m w = (Ret r, w') -> S (status r).

(** The event is no call to the synthesizer, or one with language [code]. *)
Definition speaks (code : string) (ev : event) : Prop :=
  match ev with
  | EvGTTS _ lang => lang = code
  | _ => True
  end.

(** The status code of the response a view returned, if it returned. *)
Definition status_of (run : outcome response * World) : option Z :=
  match fst run with
  | Ret r => Some (status r)
  | Raise _ => None
  end.

(** The world once the server is done with the response of a view. *)
Definition world_after_close (run : outcome response * World) : World :=
  match fst run with
  | Ret r => snd (finish_response r (snd run))
  | Raise _ => snd run
  end.

(** The number of functions registered with [call_on_close]. *)
Definition registered_hooks (run : outcome response * World) : nat :=
  match fst run with
  | Ret r => length (on_close r)
  | Raise _ => 0%nat
  end.

(** The JSON document of a response. *)
Definition payload_of (run : outcome response * World) : option pyval :=
  match fst run with
  | Ret r => match resp_body r with
             | JsonBody payload => Some payload
             | FileBody _ _ => None
             end
  | Raise _ => None
  end.

(** The articles array of a JSON response. *)
Definition articles_of (run : outcome response * World) : option (list pyval) :=
  match payload_of run with
  | Some (VDict d) => articles_list d
  | _ => None
  end.

(** An article record the loop of [get_news] can process: an object
    whose source is absent or an object. *)
Definition article_ok (a : pyval) : bool :=
  match a with
  | VDict d => match Py.assoc "source" d with
               | None | Some (VDict _) => true
               | Some _ => false
               end
  | _ => false
  end.

(** A reply with zero articles: a decoded object whose articles field
    is the empty list, null or absent. *)
Definition zero_articles (reply : outcome http_response) : bool :=
  match decoded reply with
  | Ret (VDict d) => match Py.assoc "articles" d with
                     | None | Some VNone | Some (VList []) => true
                     | Some _ => false
                     end
  | _ => false
  end.

(** ** Vocabulary of the further properties *)

(** A computation leaves the files on disk as they are. *)
Definition keeps_files {A} (m : M A) : Prop :=
  forall w, fs (snd (m w)) = fs w.

(** The event is a query or a log line: no synthesis, no file. *)
Definition is_query (ev : event) : Prop :=
  match ev with
  | EvHttpGet _ _ | EvPrint _ | EvChat _ | EvUuid _ => True
  | _ => False
  end.

(** The chat requests of a log, in order. *)
Definition chat_requests (l : list event) : list chat_request :=
  omap (fun ev => match ev with EvChat req => Some req | _ => None end) l.

(** The line [generate_tts] prints when it fails with [e]. *)
Definition tts_failed (e : exn) : event :=
  EvPrint ("TTS failed: " +:+ exn_msg e).

(** The line [fetch_news] prints when it catches [e]. *)
Definition fetch_failed (e : exn) : event :=
  EvPrint ("Error fetching news: " +:+ exn_msg e).

(** The text the listing view hands to the summarizer for an article
    object [d], and the fields it copies. *)
Definition listing_title (d : list (string * pyval)) : pyval :=
  default (VStr "Untitled") (Py.assoc "title" d).

Definition listing_text (d : list (string * pyval)) : pyval :=
  let description := default VNone (Py.assoc "description" d) in
  let content := default VNone (Py.assoc "content" d) in
  if Py.truthy description then description
  else if Py.truthy content then content
  else listing_title d.

Definition listing_source (d : list (string * pyval)) : pyval :=
  match Py.assoc "source" d with
  | Some (VDict source) => default (VStr "Unknown") (Py.assoc "name" source)
  | _ => VStr "Unknown"
  end.

(** The same for any fetched value; what is no object has no text. *)
Definition article_text (article : pyval) : pyval :=
  match article with
  | VDict d => listing_text d
  | _ => VNone
  end.

(** [record] is the entry the listing view builds for [article]. *)
Definition is_record_of (article record : pyval) : Prop :=
  exists d id summary,
    article = VDict d
    /\ record =
         VDict [("id", VStr id);
                ("title", listing_title d);
                ("source", listing_source d);
                ("summary", VStr summary);
                ("sentiment", VStr "Neutral");
                ("url", default VNone (Py.assoc "url" d));
                ("image", default VNone (Py.assoc "urlToImage" d));
                ("publishedAt", default VNone (Py.assoc "publishedAt" d))].

(** The introduction of a briefing. *)
Definition briefing_intro (env : Env) (category region : pyval) : string :=
  "Good morning! Here are today's top " +:+ Py.str env category
  +:+ " news from " +:+ Py.str env region +:+ ". ".

(** The text the briefing view hands to the summarizer for an article
    whose fallback chain does not raise. *)
Definition briefing_text (a : pyval) : pyval :=
  match briefing_content a with
  | Ret content => content
  | Raise _ => VNone
  end.

(** The summaries of the articles [l]: what [summarize_article]
    returns for the text of each, called in turn from the world [w]. *)
Fixpoint summaries_of (env : Env) (language : pyval) (l : list pyval) (w : World)
  : list string :=
  match l with
  | [] => []
  | a :: l' =>
      let run := summarize_article env (briefing_text a) language w in
      match fst run with
      | Ret summary => summary :: summaries_of env language l' (snd run)
      | Raise _ => []
      end
  end.

(** Every value the computation returns satisfies [Q]. *)
Definition replies {A} (Q : A -> Prop) (m : M A) : Prop :=
  forall w a w', m w = (Ret a, w') -> Q a.

(** An audio answer: status 200, the file as body, and the cleanup of
    that file as the one function to run on close. *)
Definition is_audio_answer (env : Env) (r : response) : Prop :=
  status r = 200
  /\ exists path,
       resp_body r = FileBody path "audio/mp3" /\ on_close r = [cleanup env path].

(** A JSON answer of a view: no file, no function to run on close. *)
Definition is_json_answer (r : response) (code : Z) : Prop :=
  exists payload, r = jsonify payload code.

(** ** The interpreter on ASCII text

    What [int], [s.strip()] and [repr] answer on a string of ASCII
    characters ([int]: of at most 4300 digits, the interpreter's
    limit).  The concrete runs below hand them nothing else. *)

Module AsciiText.

Definition hex_digit (n : nat) : ascii :=
  ascii_of_nat (if Nat.ltb n 10 then 48 + n else 87 + n)%nat.

Definition has_char (c : ascii) (s : string) : bool :=
  existsb (Ascii.eqb c) (list_ascii_of_string s).

Definition double_quote : ascii := ascii_of_nat 34.

(** [repr] of a [str]: single quotes unless the text has a single and
    no double quote; backslash, the quote and control characters are
    escaped. *)
Definition repr_char (quote c : ascii) : string :=
  let n := nat_of_ascii c in
  if Ascii.eqb c quote || Ascii.eqb c "\"%char then String "\"%char (String c "")
  else if Nat.eqb n 9 then "\t"
  else if Nat.eqb n 10 then "\n"
  else if Nat.eqb n 13 then "\r"
  else if Nat.ltb n 32 || Nat.eqb n 127 then
    String "\"%char (String "x"%char
      (String (hex_digit (Nat.div n 16)) (String (hex_digit (Nat.modulo n 16)) "")))
  else String c "".

Definition repr (s : string) : string :=
  let quote : ascii :=
    if has_char "'"%char s && negb (has_char double_quote s) then double_quote else "'"%char in
  String quote
    (String.concat "" (map (repr_char quote) (list_ascii_of_string s))
     +:+ String quote "").

(** White space for [s.strip()]: 9-13 and 28-32. *)
Definition is_space (c : ascii) : bool :=
  let n := nat_of_ascii c in
  (Nat.leb 9 n && Nat.leb n 13) || (Nat.leb 28 n && Nat.leb n 32).

(** White space for [int(s)]: 9-13 and 32 only. *)
Definition is_int_space (c : ascii) : bool :=
  let n := nat_of_ascii c in
  (Nat.leb 9 n && Nat.leb n 13) || Nat.eqb n 32.

Fixpoint lstrip (space : ascii -> bool) (cs : list ascii) : list ascii :=
  match cs with
  | c :: cs' => if space c then lstrip space cs' else cs
  | [] => []
  end.

Definition strip_chars (space : ascii -> bool) (cs : list ascii) : list ascii :=
  rev (lstrip space (rev (lstrip space cs))).

Definition strip (s : string) : string :=
  string_of_list_ascii (strip_chars is_space (list_ascii_of_string s)).

Definition digit_of (c : ascii) : option Z :=
  let n := nat_of_ascii c in
  if Nat.leb 48 n && Nat.leb n 57 then Some (Z.of_nat (n - 48)%nat) else None.

(** Decimal digits with single underscores between digits.
    [after_digit] tells whether the previous character was a digit. *)
Fixpoint digits (cs : list ascii) (acc : Z) (after_digit : bool) : option Z :=
  match cs with
  | [] => if after_digit then Some acc else None
  | c :: cs' =>
      match digit_of c with
      | Some d => digits cs' (10 * acc + d) true
      | None =>
          if Ascii.eqb c "_"%char && after_digit then digits cs' acc false
          else None
      end
  end.

(** White space around, one optional sign, then the digits. *)
Definition int_literal (s : string) : option Z :=
  let cs := strip_chars is_int_space (list_ascii_of_string s) in
  let '(neg, ds) :=
    match cs with
    | c :: cs' =>
        if Ascii.eqb c "-"%char then (true, cs')
        else if Ascii.eqb c "+"%char then (false, cs')
        else (false, cs)
    | [] => (false, [])
    end in
  match digits ds 0 false with
  | Some n => Some (if neg then - n else n)
  | None => None
  end.

Definition int (s : string) : outcome Z :=
  match int_literal s with
  | Some n => Ret n
  | None =>
      Raise (Exn "ValueError"
               ("invalid literal for int() with base 10: " +:+ repr s))
  end.

Definition builtins : Builtins :=
  {| builtin_int := int; builtin_strip := strip; builtin_repr := repr |}.

End AsciiText.

(** ** Stubbed providers, for the concrete runs *)

Module Scenario.

Definition article (title description : string) : pyval :=
  VDict [("source", VDict [("id", VNone); ("name", VStr "Wire")]);
         ("title", VStr title);
         ("description", VStr description);
         ("url", VStr "https://example.org/story");
         ("urlToImage", VNone);
         ("publishedAt", VStr "2024-05-01T08:00:00Z");
         ("content", VNone)].

Definition ok_body (articles : list pyval) : pyval :=
  VDict [("status", VStr "ok");
         ("totalResults", VInt (Z.of_nat (length articles)));
         ("articles", VList articles)].

Definition json_reply (v : pyval) : outcome http_response :=
  Ret (HttpResponse (Ret v)).

Definition timeout_reply : outcome http_response :=
  Raise (Exn "ReadTimeout" "HTTPSConnectionPool(host='newsapi.org', port=443): Read timed out. (read timeout=10)").

Definition is_headlines (url : string) : bool :=
  String.prefix "https://newsapi.org/v2/top-headlines?" url.

Definition completion (text : string) : pyval :=
  VDict [("choices",
          VList [VDict [("index", VInt 0);
                        ("message", VDict [("role", VStr "assistant");
                                           ("content", VStr text)])]])].

(** A provider that answers [primary] to the headlines query and
    [fallback] to the search query; a chat model that answers [chat];
    a synthesizer whose [save] fails with [save_error]; a file system
    that refuses removals with [remove_error]. *)
Definition stub (primary fallback : outcome http_response) (chat : outcome pyval)
    (save_error remove_error : option exn) : Env :=
  {| python := AsciiText.builtins;
     getenv_NEWS_API_KEY := None;
     env_requests_get := fun _ url _ => if is_headlines url then primary else fallback;
     env_chat_create := fun _ _ => chat;
     env_gtts_init := fun _ _ _ => None;
     env_gtts_save := fun _ _ _ _ => save_error;
     env_tmp_candidates := fun _ => ["/tmp/tmpk3v9x2ab"; "/tmp/tmpq0d7hs1c"];
     env_remove_error := fun _ _ => remove_error;
     env_uuid4 := fun l => "00000000-0000-4000-8000-00000000000" +:+ pretty (length l `mod` 10)%nat |}.

Definition w0 : World := {| log := []; fs := ∅ |}.

Definition two_articles : list pyval :=
  [article "Rates rise" "The central bank raised rates.";
   article "Cup final" "The home side won on penalties."].

Definition summary : outcome pyval := Ret (completion " Rates went up. ").

(** Headlines: two articles. *)
Definition headlines : Env :=
  stub (json_reply (ok_body two_articles)) timeout_reply summary None None.

(** Headlines: none; search: two articles. *)
Definition search_only : Env :=
  stub (json_reply (ok_body [])) (json_reply (ok_body two_articles)) summary None None.

(** Both queries answer with an empty list. *)
Definition no_news : Env :=
  stub (json_reply (ok_body [])) (json_reply (ok_body [])) summary None None.

(** Headlines: one article whose source is null. *)
Definition null_source : Env :=
  stub (json_reply (ok_body [VDict [("source", VNone); ("title", VStr "Storm warning")]]))
    timeout_reply summary None None.

(** Headlines: one article with neither title nor text. *)
Definition untitled : Env :=
  stub (json_reply (ok_body [VDict [("source", VDict [("name", VStr "Wire")]);
                                    ("description", VNone);
                                    ("content", VNone)]]))
    timeout_reply summary None None.

(** The synthesizer fails while it saves the audio. *)
Definition save_error : exn :=
  Exn "gTTSError" "Failed to connect. Probable cause: Unknown".

Definition save_fails : Env :=
  stub (json_reply (ok_body two_articles)) timeout_reply summary (Some save_error) None.

(** The file system refuses to remove files. *)
Definition remove_fails : Env :=
  stub (json_reply (ok_body two_articles)) timeout_reply summary None
    (Some (Exn "PermissionError" "[Errno 13] Permission denied")).

(** The chat model times out. *)
Definition chat_timeout_error : exn :=
  Exn "Timeout" "Request timed out".

Definition chat_down : Env :=
  stub (json_reply (ok_body two_articles)) timeout_reply (Raise chat_timeout_error) None None.

(** The chat model answers without any choice. *)
Definition chat_empty : Env :=
  stub (json_reply (ok_body two_articles)) timeout_reply
    (Ret (VDict [("choices", VList [])])) None None.

(** The provider cannot be reached. *)
Definition unreachable : Env :=
  stub timeout_reply timeout_reply summary None None.

(** The constructor of the synthesizer refuses the language. *)
Definition init_error : exn :=
  Exn "ValueError" "Language not supported: xx".

Definition init_fails : Env :=
  {| python := AsciiText.builtins;
     getenv_NEWS_API_KEY := Some "";
     env_requests_get := fun _ _ _ => json_reply (ok_body two_articles);
     env_chat_create := fun _ _ => summary;
     env_gtts_init := fun _ _ _ => Some init_error;
     env_gtts_save := fun _ _ _ _ => None;
     env_tmp_candidates := fun _ => ["/tmp/tmpk3v9x2ab"];
     env_remove_error := fun _ _ => None;
     env_uuid4 := fun _ => "9f1c2d3e-0000-4000-8000-000000000000" |}.

(** Headlines: one article and one thing that is no article. *)
Definition one_bad_article : Env :=
  stub (json_reply (ok_body [article "Rates rise" "The central bank raised rates.";
                             VStr "advertisement"]))
    timeout_reply summary None None.

End Scenario.

(** ** The runs of [fetch_news] *)

(** The test of the [if] of [fetch_news] on a decoded object:
    [data.get("status") == "ok" and data.get("articles")]. *)
Definition takes_primary (d : list (string * pyval)) : bool :=
  Py.eq_str (default VNone (Py.assoc "status" d)) "ok"
  && Py.truthy (default VNone (Py.assoc "articles" d)).

(** What the [except] clause of [fetch_news] makes of the outcome of
    the [try] block. *)
Definition caught (o : outcome pyval) (w : World) : outcome pyval * World :=
  match o with
  | Ret v => (Ret v, w)
  | Raise e => (Ret (VList []), add_event (EvPrint ("Error fetching news: " +:+ exn_msg e)) w)
  end.

(** The outcome of the fallback branch for a given reply. *)
Definition fallback_outcome (reply : outcome http_response) : outcome pyval :=
  match decoded reply with
  | Ret data2 => Py.get data2 "articles" (VList [])
  | Raise e => Raise e
  end.

(** ** Logs and outcomes *)

Lemma events_since_app (w w' : World) (new : list event) :
  log w' = log w ++ new -> events_since w w' = new.
Proof. intros H. unfold events_since. rewrite H. apply drop_app_length. Qed.

Lemma events_since_one w ev : events_since w (add_event ev w) = [ev].
Proof. apply events_since_app. reflexivity. Qed.

Lemma events_since_two w ev1 ev2 :
  events_since w (add_event ev2 (add_event ev1 w)) = [ev1; ev2].
Proof. apply events_since_app. cbn [log add_event]. by rewrite <- app_assoc. Qed.

Lemma emits_ret {A} (P : event -> Prop) (a : A) : emits P (ret a).
Proof. intros w. exists []. by rewrite app_nil_r. Qed.

Lemma emits_lift {A} (P : event -> Prop) (o : outcome A) : emits P (lift o).
Proof. intros w. exists []. by rewrite app_nil_r. Qed.

Lemma emits_bind {A B} (P : event -> Prop) (m : M A) (k : A -> M B) :
  emits P m -> (forall a, emits P (k a)) -> emits P (bind m k).
Proof.
  intros Hm Hk w. unfold bind. destruct (Hm w) as (new1 & Hlog1 & HP1).
  destruct (m w) as [[a|e] w1]; cbn [snd] in *.
  - destruct (Hk a w1) as (new2 & Hlog2 & HP2).
    exists (new1 ++ new2). rewrite Hlog2, Hlog1, <- app_assoc.
    split; [reflexivity | by apply Forall_app].
  - by exists new1.
Qed.

Lemma emits_bind_lift {A B} (P : event -> Prop) (o : outcome A) (k : A -> M B) :
  (forall a, o = Ret a -> emits P (k a)) -> emits P (bind (lift o) k).
Proof.
  intros Hk. destruct o as [a|e].
  - intros w. exact (Hk a eq_refl w).
  - intros w. exists []. by rewrite app_nil_r.
Qed.

Lemma emits_try_except {A} (P : event -> Prop) (m : M A) (h : exn -> M A) :
  emits P m -> (forall e, emits P (h e)) -> emits P (try_except m h).
Proof.
  intros Hm Hh w. unfold try_except. destruct (Hm w) as (new1 & Hlog1 & HP1).
  destruct (m w) as [[a|e] w1]; cbn [snd] in *.
  - by exists new1.
  - destruct (Hh e w1) as (new2 & Hlog2 & HP2).
    exists (new1 ++ new2). rewrite Hlog2, Hlog1, <- app_assoc.
    split; [reflexivity | by apply Forall_app].
Qed.

Lemma emits_for_each {A B} (P : event -> Prop) (f : A -> M B) (l : list A) :
  (forall a, emits P (f a)) -> emits P (for_each f l).
Proof.
  intros Hf. induction l as [|a l IH]; cbn [for_each].
  - apply emits_ret.
  - apply emits_bind; [apply Hf|]. intros b.
    apply emits_bind; [apply IH|]. intros bs. apply emits_ret.
Qed.

(** One call: the world the call leaves has one more event. *)
Lemma emits_one {A} (P : event -> Prop) (m : M A) (ev : World -> event) :
  (forall w, log (snd (m w)) = log w ++ [ev w]) ->
  (forall w, P (ev w)) ->
  emits P m.
Proof.
  intros Hlog HP w. exists [ev w]. split; [apply Hlog|].
  constructor; [apply HP | constructor].
Qed.

Lemma emits_print (P : event -> Prop) line :
  P (EvPrint line) -> emits P (print line).
Proof. intros HP. by apply (emits_one P _ (fun _ => EvPrint line)). Qed.

Lemma emits_requests_get (P : event -> Prop) env url timeout :
  P (EvHttpGet url timeout) -> emits P (requests_get env url timeout).
Proof. intros HP. by apply (emits_one P _ (fun _ => EvHttpGet url timeout)). Qed.

(** A loop whose body returns in every world returns one result per
    element. *)
Lemma for_each_returns {A B} (f : A -> M B) (l : list A) :
  (forall a, a ∈ l -> forall w, exists b w', f a w = (Ret b, w')) ->
  forall w, exists bs w', for_each f l w = (Ret bs, w') /\ length bs = length l.
Proof.
  induction l as [|a l IH]; intros Hbody w.
  - by exists [], w.
  - destruct (Hbody a (list_elem_of_here a l) w) as (b & w1 & Hb).
    destruct (IH (fun a' Hin => Hbody a' (list_elem_of_further a' a l Hin)) w1)
      as (bs & w2 & Hbs & Hlen).
    exists (b :: bs), w2. cbn [for_each]. unfold bind at 1. rewrite Hb.
    unfold bind at 1. rewrite Hbs. split; [reflexivity|]. cbn [length]. by rewrite Hlen.
Qed.

Lemma answers_ret (S : Z -> Prop) r : S (status r) -> answers S (ret r).
Proof. intros HS w r' w' [= <- _]. exact HS. Qed.

Lemma answers_bind {A} (S : Z -> Prop) (m : M A) (k : A -> M response) :
  (forall a, answers S (k a)) -> answers S (bind m k).
Proof.
  intros Hk w r w'. unfold bind. destruct (m w) as [[a|e] w1]; [apply Hk | discriminate].
Qed.

Lemma answers_weaken (S S' : Z -> Prop) m :
  (forall code, S code -> S' code) -> answers S m -> answers S' m.
Proof. intros HSS Hm w r w' Hrun. apply HSS. by apply (Hm w r w'). Qed.

Lemma no_synthesis_no_tts_calls (l : list event) :
  Forall (fun ev => is_synthesis_event ev = false) l -> tts_calls l = [].
Proof.
  induction 1 as [|ev l Hev _ IH]; [reflexivity|].
  unfold tts_calls in *. cbn [omap]. destruct ev; try discriminate; exact IH.
Qed.

(** ** The news fetcher *)

Lemma top_headlines_is_not_everything env category region limit :
  top_headlines_url env category region limit <> everything_url env category limit.
Proof. unfold top_headlines_url, everything_url. simpl. discriminate. Qed.

Lemma fetch_news_fallback_run env category limit w :
  fetch_news_fallback env category limit w =
    (fallback_outcome (env_requests_get env (log w) (everything_url env category limit) 10),
     add_event (EvHttpGet (everything_url env category limit) 10) w).
Proof.
  unfold fetch_news_fallback, fallback_outcome, bind, requests_get, lift, decoded.
  destruct (env_requests_get env (log w) _ 10) as [resp|e]; [|reflexivity].
  destruct (resp_json resp) as [data2|e]; reflexivity.
Qed.

(** Every run of [fetch_news], by the reply to the primary call. *)
Lemma fetch_news_run env category region limit w :
  fetch_news env category region limit w =
    let w1 := add_event (EvHttpGet (top_headlines_url env category region limit) 10) w in
    let w2 := add_event (EvHttpGet (everything_url env category limit) 10) w1 in
    match decoded (primary_reply env category region limit w) with
    | Raise e => caught (Raise e) w1
    | Ret (VDict d) =>
        if takes_primary d then (Ret (default VNone (Py.assoc "articles" d)), w1)
        else caught (fallback_outcome (fallback_reply env category region limit w)) w2
    | Ret data => caught (Raise (Py.AttributeError data "get")) w1
    end.
Proof.
  unfold fetch_news, try_except, primary_reply, fallback_reply, decoded, takes_primary.
  unfold bind at 1. unfold requests_get at 1.
  destruct (env_requests_get env (log w) _ 10) as [resp|e]; [|reflexivity].
  unfold bind at 1, lift at 1.
  destruct (resp_json resp) as [data|e]; [|reflexivity].
  unfold bind at 1, lift at 1.
  destruct data as [ | b | n | s | l | d]; try reflexivity.
  cbn [Py.get Py.getitem].
  destruct (Py.assoc "status" d) as [st|]; destruct (Py.assoc "articles" d) as [a|];
    cbn [default from_option id Py.truthy Py.eq_str andb].
  - destruct (Py.eq_str st "ok"); cbn [andb].
    + unfold bind at 1, lift at 1.
      destruct (Py.truthy a); [reflexivity|].
      rewrite fetch_news_fallback_run. cbn [log add_event].
      destruct (fallback_outcome _); reflexivity.
    + rewrite fetch_news_fallback_run. cbn [log add_event].
      destruct (fallback_outcome _); reflexivity.
  - destruct (Py.eq_str st "ok"); cbn [andb].
    + unfold bind at 1, lift at 1. cbn [Py.truthy].
      rewrite fetch_news_fallback_run. cbn [log add_event].
      destruct (fallback_outcome _); reflexivity.
    + rewrite fetch_news_fallback_run. cbn [log add_event].
      destruct (fallback_outcome _); reflexivity.
  - rewrite fetch_news_fallback_run. cbn [log add_event].
    destruct (fallback_outcome _); reflexivity.
  - rewrite fetch_news_fallback_run. cbn [log add_event].
    destruct (fallback_outcome _); reflexivity.
Qed.

Lemma caught_returns o w : exists v, fst (caught o w) = Ret v.
Proof. destruct o; simpl; eauto. Qed.

Lemma caught_raise e w : fst (caught (Raise e) w) = Ret (VList []).
Proof. reflexivity. Qed.

Lemma caught_http_calls w0 o w new :
  log w = log w0 ++ new ->
  http_calls (events_since w0 (snd (caught o w))) = http_calls new.
Proof.
  intros Hlog. destruct o as [v|e]; cbn [caught snd].
  - by rewrite (events_since_app _ _ _ Hlog).
  - rewrite (events_since_app w0 _ (new ++ [EvPrint ("Error fetching news: " +:+ exn_msg e)])).
    + unfold http_calls. rewrite omap_app. cbn [omap]. by rewrite app_nil_r.
    + cbn [log add_event]. rewrite Hlog. by rewrite <- app_assoc.
Qed.

(** On a well-typed response the test of the code is the policy of the
    specification. *)
Lemma takes_primary_spec d :
  articles_field_typed d -> takes_primary d = negb (needs_fallback d).
Proof.
  unfold articles_field_typed, takes_primary, needs_fallback, status_ok,
    articles_empty_or_absent, articles_list.
  destruct (Py.assoc "status" d) as [[ | | | s | | ]|];
    destruct (Py.assoc "articles" d) as [[ | | | | [|a arts] | ]|];
    cbn; intros H; try (exfalso; exact H); try reflexivity;
    destruct (String.eqb s "ok"); reflexivity.
Qed.

(** C1: when the primary call returns a decoded object, the search
    endpoint is called exactly when the status is not "ok" or the
    articles list is empty or absent; the fallback URL carries the query
    "<category> news", the English language filter and the page size of
    the primary call; without fallback the primary articles are the
    result, with it the articles field of the fallback response (the
    empty list when absent) is returned as it is, after exactly two
    calls. *)
Theorem fetch_news_fallback_policy env category region limit w d :
  decoded (primary_reply env category region limit w) = Ret (VDict d) ->
  articles_field_typed d ->
  let url1 := top_headlines_url env category region limit in
  let url2 := everything_url env category limit in
  let run := fetch_news env category region limit w in
  http_calls (events_since w (snd run)) = (if needs_fallback d then [url1; url2] else [url1])
  /\ url1 = "https://newsapi.org/v2/top-headlines?country=" +:+ Py.str env region
            +:+ "&category=" +:+ Py.str env category
            +:+ "&pageSize=" +:+ Py.str env limit
            +:+ "&apiKey=" +:+ NEWS_API_KEY env
  /\ url2 = "https://newsapi.org/v2/everything?q=" +:+ (Py.str env category +:+ " news")
            +:+ "&language=en&pageSize=" +:+ Py.str env limit
            +:+ "&apiKey=" +:+ NEWS_API_KEY env
  /\ (needs_fallback d = false ->
      exists l, articles_list d = Some l /\ fst run = Ret (VList l))
  /\ (needs_fallback d = true ->
      forall d2, decoded (fallback_reply env category region limit w) = Ret (VDict d2) ->
                 fst run = Ret (default (VList []) (Py.assoc "articles" d2))).
Proof.
  intros Hreply Htyped. cbv zeta.
  rewrite fetch_news_run. cbv zeta. rewrite Hreply.
  rewrite (takes_primary_spec d Htyped).
  split; [|split; [|split; [|split]]].
  - destruct (needs_fallback d); cbn [negb].
    + rewrite (caught_http_calls w _ _
                 [EvHttpGet (top_headlines_url env category region limit) 10;
                  EvHttpGet (everything_url env category limit) 10]).
      * reflexivity.
      * cbn [log add_event]. by rewrite <- app_assoc.
    + cbn [snd]. by rewrite events_since_one.
  - reflexivity.
  - reflexivity.
  - intros Hno. rewrite Hno. cbn [negb fst].
    unfold needs_fallback, articles_empty_or_absent, articles_list in *.
    destruct (Py.assoc "articles" d) as [[ | | | | [|a l] | ]|];
      rewrite ?orb_true_r in Hno; try discriminate.
    by exists (a :: l).
  - intros Hyes d2 Hd2. rewrite Hyes. cbn [negb].
    unfold fallback_outcome. rewrite Hd2. reflexivity.
Qed.

Lemma fetch_news_fallback_policy_witness :
  http_calls (events_since Scenario.w0
                (snd (fetch_news Scenario.search_only (VStr "sports") (VStr "in") (VInt 2)
                        Scenario.w0))) =
    ["https://newsapi.org/v2/top-headlines?country=in&category=sports&pageSize=2&apiKey=809a78470dbf4902bcbba81cae58b192";
     "https://newsapi.org/v2/everything?q=sports news&language=en&pageSize=2&apiKey=809a78470dbf4902bcbba81cae58b192"]
  /\ fst (fetch_news Scenario.search_only (VStr "sports") (VStr "in") (VInt 2) Scenario.w0)
     = Ret (VList Scenario.two_articles).
Proof.
  pose proof (fetch_news_fallback_policy Scenario.search_only
    (VStr "sports") (VStr "in") (VInt 2) Scenario.w0
    [("status", VStr "ok"); ("totalResults", VInt 0); ("articles", VList [])]
    eq_refl I) as (Hcalls & _ & _ & _ & Hres).
  split.
  - exact Hcalls.
  - exact (Hres eq_refl _ eq_refl).
Defined.

(** C2: [fetch_news] returns a value in every world and for every
    input; when the primary call fails (the request or the decoding of
    its body raises) the value is the empty list, and so it is when the
    fallback call is made and fails, or when the primary body decodes
    to something that is not an object. *)
Theorem fetch_news_never_raises env category region limit w :
  (exists articles, fst (fetch_news env category region limit w) = Ret articles)
  /\ (call_fails (primary_reply env category region limit w) = true ->
      fst (fetch_news env category region limit w) = Ret (VList []))
  /\ (forall d,
        decoded (primary_reply env category region limit w) = Ret (VDict d) ->
        takes_primary d = false ->
        call_fails (fallback_reply env category region limit w) = true ->
        fst (fetch_news env category region limit w) = Ret (VList []))
  /\ (forall data,
        decoded (primary_reply env category region limit w) = Ret data ->
        (forall d, data <> VDict d) ->
        fst (fetch_news env category region limit w) = Ret (VList [])).
Proof.
  rewrite fetch_news_run. cbv zeta. unfold call_fails.
  split; [|split; [|split]].
  - destruct (decoded (primary_reply env category region limit w)) as [data|e];
      [|apply caught_returns].
    destruct data; try apply caught_returns.
    destruct (takes_primary d); [simpl; eauto | apply caught_returns].
  - destruct (decoded (primary_reply env category region limit w)); [discriminate|].
    intros _. apply caught_raise.
  - intros d -> -> Hfail. unfold fallback_outcome.
    destruct (decoded (fallback_reply env category region limit w)); [discriminate|].
    apply caught_raise.
  - intros data -> Hnot. destruct data; try apply caught_raise.
    by destruct (Hnot d).
Qed.

Lemma fetch_news_never_raises_witness :
  fst (fetch_news Scenario.unreachable (VStr "sports") (VStr "in") (VInt 5) Scenario.w0)
    = Ret (VList [])
  /\ fst (fetch_news (Scenario.stub (Scenario.json_reply (Scenario.ok_body []))
                        Scenario.timeout_reply Scenario.summary None None)
            (VStr "sports") (VStr "in") (VInt 5) Scenario.w0)
    = Ret (VList []).
Proof.
  split.
  - apply (proj1 (proj2 (fetch_news_never_raises Scenario.unreachable
                           (VStr "sports") (VStr "in") (VInt 5) Scenario.w0))).
    reflexivity.
  - apply (proj1 (proj2 (proj2 (fetch_news_never_raises
                           (Scenario.stub (Scenario.json_reply (Scenario.ok_body []))
                              Scenario.timeout_reply Scenario.summary None None)
                           (VStr "sports") (VStr "in") (VInt 5) Scenario.w0)))
             [("status", VStr "ok"); ("totalResults", VInt 0); ("articles", VList [])]);
      reflexivity.
Defined.

Lemma fetch_news_zero_articles env category region limit w :
  zero_articles (primary_reply env category region limit w) = true ->
  zero_articles (fallback_reply env category region limit w) = true ->
  exists v w', fetch_news env category region limit w = (Ret v, w')
               /\ Py.truthy v = false.
Proof.
  unfold zero_articles. intros Hp Hf. rewrite fetch_news_run. cbv zeta.
  destruct (decoded (primary_reply env category region limit w)) as [[ | | | | | d]|];
    try discriminate.
  assert (Htest : takes_primary d = false).
  { unfold takes_primary.
    destruct (Py.assoc "articles" d) as [[ | | | | [|] | ]|]; try discriminate;
      cbn [default from_option id Py.truthy]; apply andb_false_r. }
  rewrite Htest. unfold fallback_outcome.
  destruct (decoded (fallback_reply env category region limit w)) as [[ | | | | | d2]|];
    try discriminate.
  cbn [Py.get].
  destruct (Py.assoc "articles" d2) as [[ | | | | [|] | ]|]; try discriminate;
    cbn [caught]; eauto.
Qed.

Lemma fetch_news_first_call env category region limit w :
  exists articles w1 rest,
    fetch_news env category region limit w = (Ret articles, w1)
    /\ log w1 = log w ++ EvHttpGet (top_headlines_url env category region limit) 10 :: rest
    /\ Forall (fun ev => is_synthesis_event ev = false) rest.
Proof.
  rewrite fetch_news_run. cbv zeta.
  assert (Hc : forall o w' new,
             log w' = log w ++ EvHttpGet (top_headlines_url env category region limit) 10 :: new ->
             Forall (fun ev => is_synthesis_event ev = false) new ->
             exists articles w1 rest,
               caught o w' = (Ret articles, w1)
               /\ log w1 = log w ++ EvHttpGet (top_headlines_url env category region limit) 10 :: rest
               /\ Forall (fun ev => is_synthesis_event ev = false) rest).
  { intros o w' new Hlog Hnew. destruct o as [v|e]; cbn [caught].
    - by exists v, w', new.
    - eexists _, _, (new ++ [_]). split; [reflexivity|]. split.
      + cbn [log add_event]. rewrite Hlog. by rewrite <- app_assoc.
      + apply Forall_app. split; [assumption|]. by repeat constructor. }
  destruct (decoded (primary_reply env category region limit w)) as [data|e].
  - destruct data; try (apply (Hc _ _ []); [reflexivity | constructor]).
    destruct (takes_primary d).
    + eexists _, _, []. split; [reflexivity|]. split; [reflexivity | constructor].
    + apply (Hc _ _ [EvHttpGet (everything_url env category limit) 10]).
      * cbn [log add_event]. by rewrite <- app_assoc.
      * by repeat constructor.
  - apply (Hc _ _ []); [reflexivity | constructor].
Qed.

Lemma emits_fetch_news (P : event -> Prop) env category region limit :
  (forall url, P (EvHttpGet url 10)) -> (forall line, P (EvPrint line)) ->
  emits P (fetch_news env category region limit).
Proof.
  intros Hget Hprint. unfold fetch_news, fetch_news_fallback.
  apply emits_try_except.
  - repeat first
      [ apply emits_lift | apply emits_ret | by apply emits_requests_get
      | apply emits_bind; [|intros ?]
      | match goal with |- emits _ (if ?b then _ else _) => destruct b end ].
  - intros e. apply emits_bind; [by apply emits_print | intros _; apply emits_ret].
Qed.

(** ** The summarizer *)

Lemma summarize_article_run env article_text language w :
  summarize_article env article_text language w =
    (Ret (match chat_outcome env (log w) (summary_request env article_text language) with
          | Ret text => text
          | Raise e => "⚠️ Error generating summary: " +:+ exn_msg e
          end),
     add_event (EvChat (summary_request env article_text language)) w).
Proof.
  unfold summarize_article, try_except, bind, lift, ChatCompletion_create,
    chat_outcome, summary_request, obind.
  destruct (env_chat_create env (log w) _) as [response|e]; [|reflexivity].
  destruct (completion_text env response); reflexivity.
Qed.

Lemma emits_summarize_article (P : event -> Prop) env article_text language :
  (forall req, P (EvChat req)) -> emits P (summarize_article env article_text language).
Proof.
  intros HP w. rewrite summarize_article_run. cbn [snd add_event log].
  eexists. split; [reflexivity|]. constructor; [apply HP | constructor].
Qed.

(** C8: [summarize_article] returns a string in every world; when the
    chat call raises (time-out, API error) or its response is malformed
    (the extraction of the text raises), the string is the warning sign
    and " Error generating summary: " followed by the text of the
    error. *)
Theorem summarize_article_failure env article_text language w :
  (exists text, fst (summarize_article env article_text language w) = Ret text)
  /\ (forall e,
        env_chat_create env (log w)
          (request_for (Py.str env language) (Py.str env article_text)) = Raise e ->
        fst (summarize_article env article_text language w)
          = Ret ("⚠️ Error generating summary: " +:+ exn_msg e))
  /\ (forall response e,
        env_chat_create env (log w)
          (request_for (Py.str env language) (Py.str env article_text)) = Ret response ->
        completion_text env response = Raise e ->
        fst (summarize_article env article_text language w)
          = Ret ("⚠️ Error generating summary: " +:+ exn_msg e)).
Proof.
  rewrite summarize_article_run. cbn [fst].
  change (summary_request env article_text language)
    with (request_for (Py.str env language) (Py.str env article_text)).
  unfold chat_outcome, obind.
  split; [eauto|]. split.
  - intros e ->. reflexivity.
  - intros response e -> ->. reflexivity.
Qed.

Lemma summarize_article_failure_witness :
  fst (summarize_article Scenario.chat_down (VStr "The bank raised rates.") (VStr "Hindi")
         Scenario.w0)
    = Ret "⚠️ Error generating summary: Request timed out"
  /\ fst (summarize_article Scenario.chat_empty (VStr "The bank raised rates.") (VStr "Hindi")
            Scenario.w0)
    = Ret "⚠️ Error generating summary: list index out of range"
  /\ take 6 (map nat_of_ascii (list_ascii_of_string "⚠️ Error generating summary: "))
     = [226; 154; 160; 239; 184; 143]%nat.
Proof.
  split; [|split].
  - apply (proj1 (proj2 (summarize_article_failure Scenario.chat_down
                           (VStr "The bank raised rates.") (VStr "Hindi") Scenario.w0))
             Scenario.chat_timeout_error).
    reflexivity.
  - apply (proj2 (proj2 (summarize_article_failure Scenario.chat_empty
                           (VStr "The bank raised rates.") (VStr "Hindi") Scenario.w0))
             (VDict [("choices", VList [])]) (Exn "IndexError" "list index out of range"));
      reflexivity.
  - reflexivity.
Defined.

(** ** The synthesizer and the audio responses *)

Lemma emits_generate_tts (P : event -> Prop) env text lang_code :
  P (EvGTTS text lang_code) ->
  (forall path, P (EvTempFile path)) -> (forall path, P (EvSave path)) ->
  (forall line, P (EvPrint line)) ->
  emits P (generate_tts env text lang_code).
Proof.
  intros Hg Ht Hs Hp. unfold generate_tts. apply emits_try_except.
  - apply emits_bind.
    { by apply (emits_one P _ (fun _ => EvGTTS text lang_code)). }
    intros _. apply emits_bind.
    { intros w. unfold NamedTemporaryFile. destruct (find _ _) as [name|]; cbn [snd log add_event set_fs].
      - exists [EvTempFile name]. split; [reflexivity|]. constructor; [apply Ht | constructor].
      - exists []. by rewrite app_nil_r. }
    intros path. apply emits_bind; [|intros _; apply emits_ret].
    by apply (emits_one P _ (fun _ => EvSave path)).
  - intros e. apply emits_bind; [by apply emits_print | intros _; apply emits_ret].
Qed.

(** [generate_tts] never raises. *)
Lemma generate_tts_returns env text lang_code w :
  exists p w', generate_tts env text lang_code w = (Ret p, w').
Proof.
  unfold generate_tts, try_except.
  match goal with
  | |- context [match ?m w with _ => _ end] => destruct (m w) as [[p|e] w1]
  end; [eauto|].
  unfold bind, print, ret. eauto.
Qed.

(** The first call of [generate_tts] is the constructor of the
    synthesizer, with the text and the code it was given. *)
Lemma generate_tts_first_call env text lang_code w :
  exists p w1 rest,
    generate_tts env text lang_code w = (Ret p, w1)
    /\ log w1 = log w ++ EvGTTS text lang_code :: rest
    /\ Forall (speaks lang_code) rest.
Proof.
  destruct (generate_tts_returns env text lang_code w) as (p & w1 & Hrun).
  exists p, w1. rewrite Hrun.
  revert Hrun. unfold generate_tts, try_except. unfold bind at 1. unfold gTTS at 1.
  destruct (env_gtts_init env (log w) text lang_code) as [e|].
  - unfold bind, print, ret. intros [= <- <-].
    exists [EvPrint ("TTS failed: " +:+ exn_msg e)]. split; [reflexivity|].
    split; [|by repeat constructor]. cbn [log add_event]. by rewrite <- app_assoc.
  - set (rest_of := (let* temp_file := NamedTemporaryFile env ".mp3" in
                     tts_save env text lang_code temp_file;; ret (Some temp_file))).
    assert (Hrest : emits (speaks lang_code)
              (try_except rest_of
                 (fun e => print ("TTS failed: " +:+ exn_msg e);; ret None))).
    { apply emits_try_except.
      - apply emits_bind.
        + intros w'. unfold NamedTemporaryFile.
          destruct (find _ _) as [name|]; cbn [snd log add_event set_fs].
          * exists [EvTempFile name]. split; [reflexivity | by repeat constructor].
          * exists []. by rewrite app_nil_r.
        + intros path. apply emits_bind; [|intros _; apply emits_ret].
          by apply (emits_one _ _ (fun _ => EvSave path)).
      - intros e. apply emits_bind; [by apply emits_print | intros _; apply emits_ret]. }
    destruct (Hrest (add_event (EvGTTS text lang_code) w)) as (new & Hlog & Hnew).
    unfold try_except in Hlog.
    intros Hrun. rewrite Hrun in Hlog. cbn [snd] in Hlog.
    exists new. split; [reflexivity|]. split; [|exact Hnew].
    rewrite Hlog. cbn [log add_event]. by rewrite <- app_assoc.
Qed.

Lemma emits_audio_response (P : event -> Prop) env path header :
  P (EvSendFile path) -> emits P (audio_response env path header).
Proof.
  intros HP. unfold audio_response. apply emits_bind; [|intros r; apply emits_ret].
  intros w. unfold send_file. destruct (bool_decide _); cbn [snd log add_event];
    (exists [EvSendFile path]; split; [reflexivity|]; constructor; [apply HP | constructor]).
Qed.

Lemma answers_audio_response env path header :
  answers (fun code => code = 200) (audio_response env path header).
Proof.
  unfold audio_response. intros w r w'. unfold bind, send_file, ret.
  destruct (bool_decide _); [|discriminate]. intros [= <- _]. reflexivity.
Qed.

(** The audio response: status 200, the file as body, one header, and
    the cleanup of that file as the only function to run on close. *)
Lemma audio_response_shape env path header w r w1 :
  audio_response env path header w = (Ret r, w1) ->
  status r = 200 /\ resp_body r = FileBody path "audio/mp3"
  /\ headers r = [(fst header, snd header)]
  /\ on_close r = [cleanup env path]
  /\ path ∈ fs w1.
Proof.
  unfold audio_response, bind, send_file, ret.
  destruct (bool_decide (path ∈ fs w)) eqn:Hin; [|discriminate].
  intros [= <- <-]. apply bool_decide_eq_true in Hin. by repeat split.
Qed.


(** When the removal is refused the cleanup still returns, and the file
    stays. *)
Example cleanup_swallows_refusal :
  fst (cleanup Scenario.remove_fails "/tmp/tmpk3v9x2ab.mp3"
         {| log := []; fs := {[ "/tmp/tmpk3v9x2ab.mp3" ]} |}) = Ret tt
  /\ ("/tmp/tmpk3v9x2ab.mp3" ∈
        fs (snd (cleanup Scenario.remove_fails "/tmp/tmpk3v9x2ab.mp3"
                   {| log := []; fs := {[ "/tmp/tmpk3v9x2ab.mp3" ]} |}))).
Proof.
  split; [reflexivity|]. refine (bool_decide_unpack _ _). vm_compute. exact I.
Qed.

(** ** The listing view *)

Lemma in_list_spec (x : string) (l : list string) :
  Py.in_list x l = true <-> x ∈ l.
Proof.
  unfold Py.in_list. rewrite existsb_exists. split.
  - intros (y & Hin & Heq). apply String.eqb_eq in Heq. subst y.
    by apply list_elem_of_In.
  - intros Hin. exists x. split; [by apply list_elem_of_In | apply String.eqb_refl].
Qed.

Lemma in_LANG_MAP_spec (language : string) :
  in_LANG_MAP language = true <->
  language = "English" \/ language = "Tamil" \/ language = "Hindi".
Proof.
  unfold in_LANG_MAP, LANG_MAP. split.
  - intros H.
    destruct (decide (language = "English")) as [|H1]; [by left|].
    destruct (decide (language = "Tamil")) as [|H2]; [by right; left|].
    destruct (decide (language = "Hindi")) as [|H3]; [by right; right|].
    rewrite !lookup_insert_ne, lookup_singleton_ne in H by done. discriminate H.
  - intros [-> | [-> | ->]]; reflexivity.
Qed.

(** C3 (amended): for a [/news] request whose limit parameter is absent
    or a string that [int()] accepts, a category parameter outside the
    allow-list is answered 400 "Invalid category" before any call to
    the outside, and a language parameter other than English, Tamil or
    Hindi is answered 400 as well. *)
Theorem news_rejects_invalid_parameters env args w limit :
  parse_limit env args = Ret limit ->
  (forall category,
     args_get args "category" = Some category ->
     category ∉ valid_categories ->
     get_news env args w =
       (Ret (jsonify (VDict [("error", VStr "Invalid category")]) 400), w))
  /\ (forall language,
        args_get args "language" = Some language ->
        ~ (language = "English" \/ language = "Tamil" \/ language = "Hindi") ->
        status_of (get_news env args w) = Some 400 /\ snd (get_news env args w) = w).
Proof.
  intros Hlimit. split.
  - intros category Hcat Hbad.
    unfold get_news, try_except, bind, lift. rewrite Hlimit, Hcat. cbn [default from_option id].
    destruct (Py.in_list category valid_categories) eqn:Hin.
    + apply in_list_spec in Hin. contradiction.
    + reflexivity.
  - intros language Hlang Hbad.
    unfold get_news, try_except, bind, lift. rewrite Hlimit, Hlang. cbn [default from_option id].
    destruct (Py.in_list _ valid_categories); cbn [negb]; [|by split].
    destruct (in_LANG_MAP language) eqn:Hin.
    + apply in_LANG_MAP_spec in Hin. contradiction.
    + by split.
Qed.

Lemma news_rejects_invalid_parameters_witness :
  get_news Scenario.headlines [("category", "weather"); ("limit", "3")] Scenario.w0 =
    (Ret (jsonify (VDict [("error", VStr "Invalid category")]) 400), Scenario.w0)
  /\ status_of (get_news Scenario.headlines [("language", "Klingon")] Scenario.w0) = Some 400.
Proof.
  split.
  - apply (proj1 (news_rejects_invalid_parameters Scenario.headlines
                    [("category", "weather"); ("limit", "3")] Scenario.w0 3 eq_refl)
             "weather" eq_refl).
    intros Hin. apply in_list_spec in Hin. discriminate Hin.
  - apply (proj2 (news_rejects_invalid_parameters Scenario.headlines
                    [("language", "Klingon")] Scenario.w0 5 eq_refl)
             "Klingon" eq_refl).
    intros H. apply in_LANG_MAP_spec in H. discriminate H.
Defined.

(** A limit that [int()] rejects is answered 500 before the category
    and the language are looked at. *)
Lemma news_invalid_parameter_gives_500 :
  (("bogus" ∉ valid_categories)
   /\ status_of (get_news Scenario.headlines [("category", "bogus"); ("limit", "abc")]
                   Scenario.w0) = Some 500)
  /\ ("Klingon" <> "English" /\ "Klingon" <> "Tamil" /\ "Klingon" <> "Hindi"
      /\ status_of (get_news Scenario.headlines [("language", "Klingon"); ("limit", "ten")]
                      Scenario.w0) = Some 500).
Proof.
  split.
  - split; [|reflexivity].
    intros Hin. apply in_list_spec in Hin. discriminate Hin.
  - repeat split; discriminate.
Qed.

Lemma listing_content_object d title :
  exists content, listing_content (VDict d) title = Ret content.
Proof.
  unfold listing_content. cbn [Py.get obind].
  destruct (Py.truthy _); [eauto|]. destruct (Py.truthy _); eauto.
Qed.

Lemma process_article_returns env language a w :
  article_ok a = true -> exists v w', process_article env language a w = (Ret v, w').
Proof.
  unfold article_ok, process_article. destruct a as [ | | | | | d]; try discriminate.
  destruct (listing_content_object d
              match Py.assoc "title" d with Some x => x | None => VStr "Untitled" end)
    as (content & Hcontent).
  cbn [Py.get].
  destruct (Py.assoc "source" d) as [[ | | | | | src]|]; try discriminate; intros _;
    unfold bind, lift, uuid4, ret; cbn [Py.get];
    rewrite Hcontent, summarize_article_run; eauto.
Qed.

(** The listing view past its validation: the request is well formed
    and [fetch_news] has returned. *)
Lemma get_news_after_fetch env args w limit articles w1 :
  parse_limit env args = Ret limit ->
  news_category args ∈ valid_categories ->
  is_Some (LANG_MAP !! news_language args) ->
  fetch_news env (VStr (news_category args)) (VStr (news_region args)) (VInt limit) w
    = (Ret articles, w1) ->
  get_news env args w =
    try_except
      (if negb (Py.truthy articles) then
         ret (jsonify (VDict [("message", VStr "No news found");
                              ("articles", VList [])]) 200)
       else
         let* items := lift (Py.iter articles) in
         let* processed_articles := for_each (process_article env (news_language args)) items in
         ret (jsonify (VDict [("region", VStr (news_region args));
                              ("category", VStr (news_category args));
                              ("language", VStr (news_language args));
                              ("total", VInt (Z.of_nat (length processed_articles)));
                              ("articles", VList processed_articles)]) 200))
      (fun e => ret (jsonify (VDict [("error", VStr (exn_msg e))]) 500)) w1.
Proof.
  intros Hlimit Hcat Hlang Hfetch.
  unfold get_news, try_except at 1. unfold bind at 1, lift at 1. rewrite Hlimit.
  fold (news_category args) (news_region args) (news_language args).
  apply in_list_spec in Hcat. rewrite Hcat. cbn [negb].
  unfold in_LANG_MAP. destruct Hlang as [code ->]. cbn [negb].
  unfold bind at 1. rewrite Hfetch. reflexivity.
Qed.

(** C4 (amended): for a [/news] request with a valid category, a valid
    language and a limit that is absent or accepted by [int()], when
    the fetcher returns a list of
    article objects (each with its source absent or an object), the
    response is 200 and its articles array has exactly one entry per
    fetched article; the view does not truncate, so the array is within
    the limit when the fetched list is. *)
Theorem news_returns_every_fetched_article env args w limit l :
  parse_limit env args = Ret limit ->
  news_category args ∈ valid_categories ->
  is_Some (LANG_MAP !! news_language args) ->
  fst (fetch_news env (VStr (news_category args)) (VStr (news_region args))
         (VInt limit) w) = Ret (VList l) ->
  forallb article_ok l = true ->
  status_of (get_news env args w) = Some 200
  /\ exists articles,
       articles_of (get_news env args w) = Some articles
       /\ length articles = length l
       /\ (Z.of_nat (length l) <= limit -> Z.of_nat (length articles) <= limit).
Proof.
  intros Hlimit Hcat Hlang Hfetch Hok.
  destruct (fetch_news env _ _ _ w) as [o w1] eqn:Hrun. cbn [fst] in Hfetch. subst o.
  rewrite (get_news_after_fetch _ _ _ _ _ _ Hlimit Hcat Hlang Hrun).
  destruct l as [|a l].
  - split; [reflexivity|]. exists []. split; [reflexivity|]. split; [reflexivity|].
    intros H; exact H.
  - destruct (for_each_returns (process_article env (news_language args)) (a :: l))
      with (w := w1) as (processed & w2 & Hloop & Hlen).
    { intros a' Hin w'. apply process_article_returns.
      rewrite forallb_forall in Hok. apply Hok. by apply list_elem_of_In. }
    cbn [Py.truthy negb Py.iter]. unfold try_except, bind, lift. rewrite Hloop.
    split; [reflexivity|].
    exists processed. split; [reflexivity|]. split; [exact Hlen|].
    rewrite Hlen. intros H; exact H.
Qed.

Lemma news_returns_every_fetched_article_witness :
  status_of (get_news Scenario.headlines [("category", "sports"); ("limit", "2")]
               Scenario.w0) = Some 200
  /\ exists articles,
       articles_of (get_news Scenario.headlines [("category", "sports"); ("limit", "2")]
                      Scenario.w0) = Some articles
       /\ length articles = 2%nat
       /\ (2 <= 2 -> Z.of_nat (length articles) <= 2).
Proof.
  apply (news_returns_every_fetched_article Scenario.headlines
           [("category", "sports"); ("limit", "2")] Scenario.w0 2 Scenario.two_articles).
  - reflexivity.
  - apply in_list_spec. reflexivity.
  - by eexists.
  - reflexivity.
  - reflexivity.
Defined.

(** With limit 1 and a provider that answers two articles the view
    returns both; an article whose source is null is answered 500. *)
Lemma news_can_exceed_limit :
  (parse_limit Scenario.headlines [("category", "sports"); ("limit", "1")] = Ret 1
   /\ status_of (get_news Scenario.headlines [("category", "sports"); ("limit", "1")]
                   Scenario.w0) = Some 200
   /\ exists articles,
        articles_of (get_news Scenario.headlines [("category", "sports"); ("limit", "1")]
                       Scenario.w0) = Some articles
        /\ 1 < Z.of_nat (length articles))
  /\ status_of (get_news Scenario.null_source [("category", "sports")] Scenario.w0)
     = Some 500.
Proof.
  split; [|reflexivity].
  split; [reflexivity|]. split; [reflexivity|].
  eexists. split; [reflexivity|]. reflexivity.
Qed.

(** C6: when both the primary and the fallback query are answered with
    zero articles, a [/news] request with a valid category, a valid
    language and a limit that is absent or accepted by [int()] is
    answered 200 with the message "No news found", an empty articles
    array and no error field. *)
Theorem news_without_articles env args w limit :
  parse_limit env args = Ret limit ->
  news_category args ∈ valid_categories ->
  is_Some (LANG_MAP !! news_language args) ->
  zero_articles (primary_reply env (VStr (news_category args)) (VStr (news_region args))
                   (VInt limit) w) = true ->
  zero_articles (fallback_reply env (VStr (news_category args)) (VStr (news_region args))
                   (VInt limit) w) = true ->
  status_of (get_news env args w) = Some 200
  /\ payload_of (get_news env args w) =
       Some (VDict [("message", VStr "No news found"); ("articles", VList [])])
  /\ articles_of (get_news env args w) = Some [].
Proof.
  intros Hlimit Hcat Hlang Hp Hf.
  destruct (fetch_news_zero_articles _ _ _ _ _ Hp Hf) as (v & w1 & Hrun & Hfalsy).
  rewrite (get_news_after_fetch _ _ _ _ _ _ Hlimit Hcat Hlang Hrun).
  rewrite Hfalsy. repeat split; reflexivity.
Qed.

Lemma news_without_articles_witness :
  status_of (get_news Scenario.no_news [("category", "science"); ("language", "Tamil")]
               Scenario.w0) = Some 200
  /\ payload_of (get_news Scenario.no_news [("category", "science"); ("language", "Tamil")]
                   Scenario.w0) =
       Some (VDict [("message", VStr "No news found"); ("articles", VList [])])
  /\ articles_of (get_news Scenario.no_news [("category", "science"); ("language", "Tamil")]
                    Scenario.w0) = Some [].
Proof.
  apply (news_without_articles Scenario.no_news
           [("category", "science"); ("language", "Tamil")] Scenario.w0 5).
  - reflexivity.
  - apply in_list_spec. reflexivity.
  - by eexists.
  - reflexivity.
  - reflexivity.
Defined.

(** ** The content handed to the summarizer *)

(** With a title key the briefing view reads the same content as the
    listing view. *)
Lemma briefing_content_with_title d title :
  Py.assoc "title" d = Some title ->
  briefing_content (VDict d) = listing_content (VDict d) title.
Proof.
  intros Htitle. unfold briefing_content, listing_content. cbn [Py.get Py.getitem obind].
  rewrite Htitle. reflexivity.
Qed.

(** With a truthy description or content the title is not read. *)
Lemma briefing_content_with_text d title :
  Py.truthy (default VNone (Py.assoc "description" d)) = true
  \/ Py.truthy (default VNone (Py.assoc "content" d)) = true ->
  briefing_content (VDict d) = listing_content (VDict d) title.
Proof.
  unfold briefing_content, listing_content. cbn [Py.get Py.getitem obind].
  unfold default, from_option, id.
  intros [H|H].
  - by rewrite H.
  - rewrite H. by destruct (Py.truthy _).
Qed.

(** C5: on an article with no title key and no description or content
    the listing view summarizes "Untitled" while the briefing view
    raises [KeyError]: the two fallback chains differ. *)
Theorem briefing_content_without_title :
  let a := VDict [("source", VDict [("name", VStr "Wire")]);
                  ("description", VNone); ("content", VNone)] in
  (let? title := Py.get a "title" (VStr "Untitled") in listing_content a title)
    = Ret (VStr "Untitled")
  /\ briefing_content a = Raise (Py.KeyError "title")
  /\ status_of (get_news Scenario.untitled [] Scenario.w0) = Some 200
  /\ fst (daily_briefing Scenario.untitled (VDict []) Scenario.w0)
     = Raise (Py.KeyError "title").
Proof. repeat split; reflexivity. Qed.

(** ** The briefing view *)

Lemma daily_briefing_run env d w :
  daily_briefing env (VDict d) w =
    bind (fetch_news env (briefing_category d) (briefing_region d) (briefing_limit d))
      (briefing_of_articles env (briefing_category d) (briefing_region d)
         (briefing_language d)) w.
Proof. reflexivity. Qed.

Lemma emits_briefing_summary (P : event -> Prop) env language a :
  (forall req, P (EvChat req)) -> emits P (briefing_summary env language a).
Proof.
  intros HP. unfold briefing_summary.
  apply emits_bind; [apply emits_lift | intros c; by apply emits_summarize_article].
Qed.

(** The tail of the briefing view calls the synthesizer with the code
    [LANG_MAP.get(language, "en")] only. *)
Lemma emits_briefing_of_articles (P : event -> Prop) env category region language
    articles code :
  (forall ev, speaks code ev -> P ev) ->
  (forall c, LANG_MAP_get language "en" = Ret c -> c = code) ->
  emits P (briefing_of_articles env category region language articles).
Proof.
  intros HP Hcode. unfold briefing_of_articles.
  destruct (negb (Py.truthy articles)); [apply emits_ret|].
  apply emits_bind; [apply emits_lift | intros items].
  apply emits_bind; [apply emits_for_each; intros a; apply emits_briefing_summary;
                     intros req; by apply HP | intros summaries].
  apply emits_bind_lift. intros c Hc. rewrite (Hcode c Hc).
  apply emits_bind.
  { apply emits_generate_tts; intros; by apply HP. }
  intros [path|]; [|apply emits_ret].
  destruct (path_falsy _); [apply emits_ret|].
  apply emits_audio_response. by apply HP.
Qed.

Lemma answers_briefing_of_articles env category region language articles :
  answers (fun code => code = 400 /\ Py.truthy articles = false \/ code = 500 \/ code = 200)
    (briefing_of_articles env category region language articles).
Proof.
  unfold briefing_of_articles. destruct (Py.truthy articles); cbn [negb].
  - apply answers_bind; intros items. apply answers_bind; intros summaries.
    apply answers_bind; intros lang_code. apply answers_bind; intros temp_file_path.
    destruct temp_file_path as [path|]; [|apply answers_ret; cbn; auto].
    destruct (path_falsy _); [apply answers_ret; cbn; auto|].
    eapply answers_weaken; [|apply answers_audio_response]. cbn. auto.
  - apply answers_ret. cbn. auto.
Qed.

(** C7: when the fetcher returns no article, [/briefing] answers 400
    "No articles available for briefing" and no event of the run is a
    call to the synthesizer. *)
Theorem briefing_without_articles env d w articles :
  fst (fetch_news env (briefing_category d) (briefing_region d) (briefing_limit d) w)
    = Ret articles ->
  Py.truthy articles = false ->
  status_of (daily_briefing env (VDict d) w) = Some 400
  /\ payload_of (daily_briefing env (VDict d) w)
     = Some (VDict [("error", VStr "No articles available for briefing")])
  /\ tts_calls (events_since w (snd (daily_briefing env (VDict d) w))) = []
  /\ Forall (fun ev => is_synthesis_event ev = false)
       (events_since w (snd (daily_briefing env (VDict d) w))).
Proof.
  intros Hfetch Hfalsy. rewrite daily_briefing_run. unfold bind.
  destruct (fetch_news_first_call env (briefing_category d) (briefing_region d)
              (briefing_limit d) w) as (v & w1 & rest & Hrun & Hlog & Hrest).
  rewrite Hrun in Hfetch |- *. cbn [fst] in Hfetch. injection Hfetch as ->.
  unfold briefing_of_articles. rewrite Hfalsy. cbn [negb].
  assert (Hquiet : Forall (fun ev => is_synthesis_event ev = false)
                     (events_since w (snd (ret (jsonify
                        (VDict [("error", VStr "No articles available for briefing")]) 400)
                        w1)))).
  { cbn [ret snd]. rewrite (events_since_app _ _ _ Hlog). by constructor. }
  repeat split; try reflexivity; [by apply no_synthesis_no_tts_calls | exact Hquiet].
Qed.

Lemma briefing_without_articles_witness :
  status_of (daily_briefing Scenario.no_news (VDict [("category", VStr "science")])
               Scenario.w0) = Some 400
  /\ payload_of (daily_briefing Scenario.no_news (VDict [("category", VStr "science")])
                   Scenario.w0)
     = Some (VDict [("error", VStr "No articles available for briefing")])
  /\ tts_calls (events_since Scenario.w0
                  (snd (daily_briefing Scenario.no_news (VDict [("category", VStr "science")])
                          Scenario.w0))) = []
  /\ Forall (fun ev => is_synthesis_event ev = false)
       (events_since Scenario.w0
          (snd (daily_briefing Scenario.no_news (VDict [("category", VStr "science")])
                  Scenario.w0))).
Proof.
  apply (briefing_without_articles Scenario.no_news [("category", VStr "science")]
           Scenario.w0 (VList [])); reflexivity.
Defined.

Lemma emits_daily_briefing (P : event -> Prop) env d code :
  (forall ev, speaks code ev -> P ev) ->
  (forall c, LANG_MAP_get (briefing_language d) "en" = Ret c -> c = code) ->
  emits P (daily_briefing env (VDict d)).
Proof.
  intros HP Hcode w. rewrite daily_briefing_run. revert w.
  apply emits_bind.
  - apply emits_fetch_news; intros; by apply HP.
  - intros articles. by apply (emits_briefing_of_articles P _ _ _ _ _ code).
Qed.

Lemma LANG_MAP_get_unknown (language : string) :
  ~ (language = "English" \/ language = "Tamil" \/ language = "Hindi") ->
  LANG_MAP_get (VStr language) "en" = Ret "en".
Proof.
  intros Hbad. unfold LANG_MAP_get.
  destruct (in_LANG_MAP language) eqn:Hin.
  - apply in_LANG_MAP_spec in Hin. contradiction.
  - unfold in_LANG_MAP in Hin. by destruct (LANG_MAP !! language).
Qed.

(** C10: [/briefing] validates neither parameter.  The run starts with
    the headlines query built from the category of the body as it is,
    whatever the string; a 400 answer only ever means that the fetcher
    returned no article; and a language other than English, Tamil or
    Hindi resolves to "en", the only code the synthesizer is called
    with. *)
Theorem briefing_does_not_validate env d w :
  (forall category,
     Py.assoc "category" d = Some (VStr category) ->
     exists rest,
       events_since w (snd (daily_briefing env (VDict d) w)) =
         EvHttpGet ("https://newsapi.org/v2/top-headlines?country="
                    +:+ Py.str env (briefing_region d) +:+ "&category=" +:+ category
                    +:+ "&pageSize=" +:+ Py.str env (briefing_limit d)
                    +:+ "&apiKey=" +:+ NEWS_API_KEY env) 10 :: rest)
  /\ (status_of (daily_briefing env (VDict d) w) = Some 400 ->
      exists articles,
        fst (fetch_news env (briefing_category d) (briefing_region d) (briefing_limit d) w)
          = Ret articles
        /\ Py.truthy articles = false)
  /\ (forall language,
        Py.assoc "language" d = Some (VStr language) ->
        ~ (language = "English" \/ language = "Tamil" \/ language = "Hindi") ->
        LANG_MAP_get (briefing_language d) "en" = Ret "en"
        /\ Forall (speaks "en") (events_since w (snd (daily_briefing env (VDict d) w)))).
Proof.
  split; [|split].
  - intros category Hcat.
    destruct (fetch_news_first_call env (briefing_category d) (briefing_region d)
                (briefing_limit d) w) as (v & w1 & rest & Hrun & Hlog & _).
    destruct (emits_briefing_of_articles (fun _ => True) env (briefing_category d)
                (briefing_region d) (briefing_language d) v
                (match LANG_MAP_get (briefing_language d) "en" with
                 | Ret c => c
                 | Raise _ => "en"
                 end) (fun _ _ => I)) with (w := w1) as (new & Hnew & _).
    { by intros c ->. }
    rewrite daily_briefing_run. unfold bind. rewrite Hrun.
    exists (rest ++ new). apply events_since_app.
    rewrite Hnew, Hlog, <- app_assoc. cbn [app].
    unfold top_headlines_url, briefing_category. rewrite Hcat. reflexivity.
  - rewrite daily_briefing_run. unfold bind, status_of.
    destruct (fetch_news env _ _ _ w) as [[articles|e] w1]; cbn [fst]; [|discriminate].
    destruct (briefing_of_articles env _ _ _ articles w1) as [[r|e] w2] eqn:Hrest;
      cbn [fst]; [|discriminate].
    intros [= Hstatus]. exists articles. split; [reflexivity|].
    destruct (answers_briefing_of_articles _ _ _ _ _ _ _ _ Hrest) as [[_ H]|[H|H]];
      [exact H | rewrite Hstatus in H; discriminate | rewrite Hstatus in H; discriminate].
  - intros language Hlang Hbad. unfold briefing_language at 1. rewrite Hlang.
    cbn [default from_option id].
    split; [by apply LANG_MAP_get_unknown|].
    destruct (emits_daily_briefing (speaks "en") env d "en" (fun _ H => H)) with (w := w)
      as (new & Hnew & Hen).
    { unfold briefing_language. rewrite Hlang. cbn [default from_option id].
      rewrite (LANG_MAP_get_unknown _ Hbad). by intros c [= <-]. }
    by rewrite (events_since_app _ _ _ Hnew).
Qed.

Lemma briefing_does_not_validate_witness :
  (exists rest,
     events_since Scenario.w0
       (snd (daily_briefing Scenario.headlines
               (VDict [("category", VStr "gossip"); ("language", VStr "Klingon")])
               Scenario.w0)) =
       EvHttpGet "https://newsapi.org/v2/top-headlines?country=in&category=gossip&pageSize=5&apiKey=809a78470dbf4902bcbba81cae58b192" 10 :: rest)
  /\ Forall (speaks "en")
       (events_since Scenario.w0
          (snd (daily_briefing Scenario.headlines
                  (VDict [("category", VStr "gossip"); ("language", VStr "Klingon")])
                  Scenario.w0)))
  /\ map snd (tts_calls
                (events_since Scenario.w0
                   (snd (daily_briefing Scenario.headlines
                           (VDict [("category", VStr "gossip"); ("language", VStr "Klingon")])
                           Scenario.w0)))) = ["en"]
  /\ status_of (daily_briefing Scenario.headlines
                  (VDict [("category", VStr "gossip"); ("language", VStr "Klingon")])
                  Scenario.w0) = Some 200.
Proof.
  pose proof (briefing_does_not_validate Scenario.headlines
                [("category", VStr "gossip"); ("language", VStr "Klingon")] Scenario.w0)
    as (Hcategory & _ & Hlanguage).
  split; [exact (Hcategory "gossip" eq_refl)|].
  split; [|split; reflexivity].
  apply (Hlanguage "Klingon" eq_refl).
  intros H. apply in_LANG_MAP_spec in H. discriminate H.
Defined.


(** ** The speech view *)

(** X2: [/tts] with an empty or absent text answers 400 without any
    call to the outside. *)
Theorem tts_requires_text env d w :
  Py.truthy (default VNone (Py.assoc "text" d)) = false ->
  get_tts env (VDict d) w =
    (Ret (jsonify (VDict [("error", VStr "Missing 'text' in request")]) 400), w).
Proof.
  intros Hfalsy. unfold get_tts. cbn [Py.get]. unfold bind at 1, lift at 1.
  unfold bind at 1, lift at 1.
  unfold default, from_option, id in Hfalsy. rewrite Hfalsy. reflexivity.
Qed.

Lemma tts_requires_text_witness :
  get_tts Scenario.headlines (VDict [("language", VStr "Hindi")]) Scenario.w0 =
    (Ret (jsonify (VDict [("error", VStr "Missing 'text' in request")]) 400), Scenario.w0)
  /\ get_tts Scenario.headlines (VDict [("text", VStr "")]) Scenario.w0 =
    (Ret (jsonify (VDict [("error", VStr "Missing 'text' in request")]) 400), Scenario.w0).
Proof.
  split.
  - apply (tts_requires_text Scenario.headlines [("language", VStr "Hindi")]). reflexivity.
  - apply (tts_requires_text Scenario.headlines [("text", VStr "")]). reflexivity.
Defined.

(** X3: [/tts] with a text and a language of the map calls the
    synthesizer first, with the text and the code of the language, and
    with no other code afterwards. *)
Theorem tts_language_code env d w text language code :
  Py.assoc "text" d = Some text ->
  Py.truthy text = true ->
  Py.assoc "language" d = Some (VStr language) ->
  LANG_MAP !! language = Some code ->
  exists rest,
    events_since w (snd (get_tts env (VDict d) w)) = EvGTTS text code :: rest
    /\ Forall (speaks code) rest.
Proof.
  intros Htext Htruthy Hlanguage Hcode.
  unfold get_tts. cbn [Py.get]. unfold bind at 1, lift at 1. unfold bind at 1, lift at 1.
  rewrite Htext, Hlanguage, Htruthy. cbn [negb]. unfold bind at 1, lift at 1.
  cbn [LANG_MAP_get]. rewrite Hcode. unfold bind at 1.
  destruct (generate_tts_first_call env text code w) as (p & w1 & rest & Hrun & Hlog & Hrest).
  rewrite Hrun.
  assert (Hdone : forall r, exists rest',
             events_since w (snd (ret (A := response) r w1)) = EvGTTS text code :: rest'
             /\ Forall (speaks code) rest').
  { intros r. exists rest. cbn [ret snd]. by rewrite (events_since_app _ _ _ Hlog). }
  destruct p as [path|]; [|apply Hdone].
  destruct (path_falsy _); [apply Hdone|].
  destruct (emits_audio_response (speaks code) env path ("X-Audio-File", basename path) I w1)
    as (new & Hlog' & Hnew).
  exists (rest ++ new). split.
  - apply events_since_app. rewrite Hlog', Hlog, <- app_assoc. reflexivity.
  - by apply Forall_app.
Qed.

Lemma tts_language_code_witness :
  exists rest,
    events_since Scenario.w0
      (snd (get_tts Scenario.headlines
              (VDict [("text", VStr "Vanakkam"); ("language", VStr "Tamil")]) Scenario.w0))
      = EvGTTS (VStr "Vanakkam") "ta" :: rest
    /\ Forall (speaks "ta") rest.
Proof.
  apply (tts_language_code Scenario.headlines
           [("text", VStr "Vanakkam"); ("language", VStr "Tamil")] Scenario.w0
           (VStr "Vanakkam") "Tamil" "ta"); reflexivity.
Defined.


(** ** Temporary files *)

(** C9: when the synthesizer fails while saving, the temporary file
    that [generate_tts] created stays on disk: the view answers 500, the
    response has no cleanup registered, and the file is still there
    once the server is done with the response.  The same happens in
    [/briefing]. *)
Theorem temporary_file_left_when_save_fails :
  ("/tmp/tmpk3v9x2ab.mp3" ∉ fs Scenario.w0)
  /\ (status_of (get_tts Scenario.save_fails (VDict [("text", VStr "Hello")]) Scenario.w0)
        = Some 500
      /\ registered_hooks
           (get_tts Scenario.save_fails (VDict [("text", VStr "Hello")]) Scenario.w0) = 0%nat
      /\ ("/tmp/tmpk3v9x2ab.mp3" ∈
           fs (world_after_close
                 (get_tts Scenario.save_fails (VDict [("text", VStr "Hello")]) Scenario.w0))))
  /\ (status_of (daily_briefing Scenario.save_fails (VDict []) Scenario.w0) = Some 500
      /\ registered_hooks (daily_briefing Scenario.save_fails (VDict []) Scenario.w0) = 0%nat
      /\ ("/tmp/tmpk3v9x2ab.mp3" ∈
           fs (world_after_close (daily_briefing Scenario.save_fails (VDict []) Scenario.w0)))).
Proof.
  split; [apply not_elem_of_empty|].
  split; (split; [reflexivity|]; split; [reflexivity|]);
    refine (bool_decide_unpack _ _); vm_compute; exact I.
Qed.



(** ** Further properties of the news fetcher *)

Lemma caught_files o w : fs (snd (caught o w)) = fs w.
Proof. by destruct o. Qed.

Lemma caught_events o w :
  (exists v, o = Ret v /\ caught o w = (Ret v, w))
  \/ (exists e, o = Raise e /\ caught o w = (Ret (VList []), add_event (fetch_failed e) w)).
Proof. destruct o as [v|e]; [left|right]; eauto. Qed.

(** X4: [fetch_news] sends the headlines query, then at most the search
    query, each with a time-out of 10, prints at most one line, which it
    does only when it caught an exception and returns the empty list,
    and leaves the files on disk alone. *)
Theorem fetch_news_calls env category region limit w :
  let run := fetch_news env category region limit w in
  let primary := EvHttpGet (top_headlines_url env category region limit) 10 in
  let search := EvHttpGet (everything_url env category limit) 10 in
  fs (snd run) = fs w
  /\ exists printed,
       (events_since w (snd run) = primary :: printed
        \/ events_since w (snd run) = primary :: search :: printed)
       /\ (printed = []
           \/ exists e, printed = [fetch_failed e] /\ fst run = Ret (VList [])).
Proof.
  cbv zeta. rewrite fetch_news_run. cbv zeta.
  set (primary := EvHttpGet (top_headlines_url env category region limit) 10).
  set (search := EvHttpGet (everything_url env category limit) 10).
  assert (Hcaught : forall o w1 calls,
            log w1 = log w ++ primary :: calls ->
            fs w1 = fs w ->
            calls = [] \/ calls = [search] ->
            fs (snd (caught o w1)) = fs w
            /\ exists printed,
                 (events_since w (snd (caught o w1)) = primary :: printed
                  \/ events_since w (snd (caught o w1)) = primary :: search :: printed)
                 /\ (printed = []
                     \/ exists e, printed = [fetch_failed e]
                                  /\ fst (caught o w1) = Ret (VList []))).
  { intros o w1 calls Hlog Hfiles Hcalls. split; [by rewrite caught_files|].
    destruct (caught_events o w1) as [(v & _ & ->)|(e & _ & ->)]; cbn [fst snd].
    - exists []. split; [|by left].
      rewrite (events_since_app _ _ _ Hlog). destruct Hcalls as [-> | ->]; auto.
    - exists [fetch_failed e]. split; [|right; eauto].
      rewrite (events_since_app w _ (primary :: calls ++ [fetch_failed e])).
      + destruct Hcalls as [-> | ->]; auto.
      + cbn [log add_event]. rewrite Hlog. by rewrite <- app_assoc. }
  destruct (decoded (primary_reply env category region limit w)) as [data|e];
    [|by apply (Hcaught _ _ []); auto].
  destruct data; try (by apply (Hcaught _ _ []); auto).
  destruct (takes_primary d).
  - cbn [fst snd]. split; [reflexivity|]. exists []. split; [left; apply events_since_one | by left].
  - apply (Hcaught _ _ [search]); [|reflexivity|by right].
    cbn [log add_event]. by rewrite <- app_assoc.
Qed.

(** ** Further properties of the synthesizer *)

(** Every run of [generate_tts]: the constructor, then the temporary
    file, then the save; each failure ends in a printed line and [None]. *)
Lemma generate_tts_run env text lang_code w :
  generate_tts env text lang_code w =
    let w1 := add_event (EvGTTS text lang_code) w in
    match env_gtts_init env (log w) text lang_code with
    | Some e => (Ret None, add_event (tts_failed e) w1)
    | None =>
        match List.find (fun name => negb (bool_decide (name ∈ fs w)))
                (map (fun stem => stem +:+ ".mp3") (env_tmp_candidates env (log w1))) with
        | None =>
            (Ret None,
             add_event (tts_failed (Exn "FileExistsError"
                                      "[Errno 17] No usable temporary file name found")) w1)
        | Some path =>
            let w2 := add_event (EvTempFile path) (set_fs (fs w ∪ {[ path ]}) w1) in
            let w3 := add_event (EvSave path) (set_fs (fs w ∪ {[ path ]} ∪ {[ path ]}) w2) in
            match env_gtts_save env (log w2) text lang_code path with
            | Some e => (Ret None, add_event (tts_failed e) w3)
            | None => (Ret (Some path), w3)
            end
        end
    end.
Proof.
  unfold generate_tts, try_except, bind, gTTS, NamedTemporaryFile, tts_save, print, ret,
    tts_failed.
  cbv zeta. cbn [log fs add_event set_fs].
  destruct (env_gtts_init env (log w) text lang_code) as [e|]; [reflexivity|].
  destruct (find _ _) as [path|]; [|reflexivity].
  cbn [log fs add_event set_fs].
  destruct (env_gtts_save env _ text lang_code path) as [e|]; reflexivity.
Qed.

Lemma union_singleton_twice (files : gset string) (path : string) :
  files ∪ {[ path ]} ∪ {[ path ]} = files ∪ {[ path ]}.
Proof. by rewrite <- (assoc_L (∪)), (idemp_L (∪)). Qed.

Lemma found_name_is_fresh (files : gset string) (names : list string) path :
  List.find (fun name => negb (bool_decide (name ∈ files))) names = Some path ->
  path ∈ names /\ path ∉ files.
Proof.
  intros Hfind. apply find_some in Hfind as [Hin Hfree].
  split; [by apply list_elem_of_In|].
  apply negb_true_iff, bool_decide_eq_false in Hfree. exact Hfree.
Qed.

(** X5: when [generate_tts] returns a path, it is a candidate name of
    the system followed by ".mp3", it was not on disk before, it is the
    one file the call added, and the call made exactly three steps:
    the constructor, the temporary file, the save. *)
Theorem generate_tts_creates_one_fresh_file env text lang_code w path w' :
  generate_tts env text lang_code w = (Ret (Some path), w') ->
  (path ∉ fs w)
  /\ fs w' = fs w ∪ {[ path ]}
  /\ (exists stem,
        stem ∈ env_tmp_candidates env (log w ++ [EvGTTS text lang_code])
        /\ path = stem +:+ ".mp3")
  /\ events_since w w' = [EvGTTS text lang_code; EvTempFile path; EvSave path].
Proof.
  rewrite generate_tts_run. cbv zeta.
  destruct (env_gtts_init env (log w) text lang_code) as [e|]; [discriminate|].
  destruct (find _ _) as [name|] eqn:Hfind; [|discriminate].
  destruct (env_gtts_save env _ text lang_code name) as [e|]; [discriminate|].
  intros [= <- <-]. apply found_name_is_fresh in Hfind as [Hin Hfresh].
  split; [exact Hfresh|]. split; [apply union_singleton_twice|]. split.
  - apply list_elem_of_fmap in Hin as (stem & -> & Hstem). by exists stem.
  - apply events_since_app. cbn [log add_event set_fs]. by rewrite <- !app_assoc.
Qed.

(** X6: when [generate_tts] returns [None], the last thing it did was
    to print "TTS failed: " and the error.  The files on disk are as
    before, unless the failure was that of the save: then the temporary
    file the call created is left behind. *)
Theorem generate_tts_failure env text lang_code w w' :
  generate_tts env text lang_code w = (Ret None, w') ->
  exists e rest,
    events_since w w' = EvGTTS text lang_code :: rest ++ [tts_failed e]
    /\ ((rest = [] /\ fs w' = fs w)
        \/ exists path,
             rest = [EvTempFile path; EvSave path]
             /\ (path ∉ fs w)
             /\ fs w' = fs w ∪ {[ path ]}
             /\ env_gtts_save env (log w ++ [EvGTTS text lang_code; EvTempFile path])
                  text lang_code path = Some e).
Proof.
  rewrite generate_tts_run. cbv zeta.
  destruct (env_gtts_init env (log w) text lang_code) as [e|].
  { intros [= <-]. exists e, []. split; [apply events_since_two | by left]. }
  destruct (find _ _) as [name|] eqn:Hfind.
  2: { intros [= <-]. eexists _, []. split; [apply events_since_two | by left]. }
  destruct (env_gtts_save env _ text lang_code name) as [e|] eqn:Hsave; [|discriminate].
  intros [= <-]. apply found_name_is_fresh in Hfind as [_ Hfresh].
  exists e, [EvTempFile name; EvSave name]. split.
  - apply events_since_app. cbn [log add_event set_fs]. by rewrite <- !app_assoc.
  - right. exists name. split; [reflexivity|]. split; [exact Hfresh|].
    split; [apply union_singleton_twice|].
    cbn [log add_event set_fs] in Hsave. by rewrite <- app_assoc in Hsave.
Qed.

Lemma generate_tts_creates_one_fresh_file_witness :
  ("/tmp/tmpk3v9x2ab.mp3" ∉ fs Scenario.w0)
  /\ events_since Scenario.w0
       (snd (generate_tts Scenario.headlines (VStr "Hello") "hi" Scenario.w0))
     = [EvGTTS (VStr "Hello") "hi"; EvTempFile "/tmp/tmpk3v9x2ab.mp3";
        EvSave "/tmp/tmpk3v9x2ab.mp3"].
Proof.
  destruct (generate_tts_creates_one_fresh_file Scenario.headlines (VStr "Hello") "hi"
              Scenario.w0 "/tmp/tmpk3v9x2ab.mp3"
              (snd (generate_tts Scenario.headlines (VStr "Hello") "hi" Scenario.w0))
              eq_refl) as (Hfresh & _ & _ & Hevents).
  exact (conj Hfresh Hevents).
Defined.

Lemma generate_tts_failure_witness :
  (exists e rest,
     events_since Scenario.w0
       (snd (generate_tts Scenario.save_fails (VStr "Hello") "en" Scenario.w0))
       = EvGTTS (VStr "Hello") "en" :: rest ++ [tts_failed e])
  /\ (exists e rest,
        events_since Scenario.w0
          (snd (generate_tts Scenario.init_fails (VStr "Hello") "xx" Scenario.w0))
          = EvGTTS (VStr "Hello") "xx" :: rest ++ [tts_failed e]).
Proof.
  split.
  - destruct (generate_tts_failure Scenario.save_fails (VStr "Hello") "en" Scenario.w0
                (snd (generate_tts Scenario.save_fails (VStr "Hello") "en" Scenario.w0))
                eq_refl) as (e & rest & Hevents & _).
    by exists e, rest.
  - destruct (generate_tts_failure Scenario.init_fails (VStr "Hello") "xx" Scenario.w0
                (snd (generate_tts Scenario.init_fails (VStr "Hello") "xx" Scenario.w0))
                eq_refl) as (e & rest & Hevents & _).
    by exists e, rest.
Defined.

(** ** Further properties of the listing view *)

Lemma keeps_files_ret {A} (a : A) : keeps_files (ret a).
Proof. by intros w. Qed.

Lemma keeps_files_lift {A} (o : outcome A) : keeps_files (lift o).
Proof. by intros w. Qed.

Lemma keeps_files_bind {A B} (m : M A) (k : A -> M B) :
  keeps_files m -> (forall a, keeps_files (k a)) -> keeps_files (bind m k).
Proof.
  intros Hm Hk w. unfold bind. specialize (Hm w).
  destruct (m w) as [[a|e] w1]; cbn [snd] in *; [|exact Hm].
  by rewrite (Hk a w1).
Qed.

Lemma keeps_files_try_except {A} (m : M A) (h : exn -> M A) :
  keeps_files m -> (forall e, keeps_files (h e)) -> keeps_files (try_except m h).
Proof.
  intros Hm Hh w. unfold try_except. specialize (Hm w).
  destruct (m w) as [[a|e] w1]; cbn [snd] in *; [exact Hm|].
  by rewrite (Hh e w1).
Qed.

Lemma keeps_files_for_each {A B} (f : A -> M B) (l : list A) :
  (forall a, keeps_files (f a)) -> keeps_files (for_each f l).
Proof.
  intros Hf. induction l as [|a l IH]; cbn [for_each].
  - apply keeps_files_ret.
  - apply keeps_files_bind; [apply Hf|]. intros b.
    apply keeps_files_bind; [apply IH|]. intros bs. apply keeps_files_ret.
Qed.

Lemma keeps_files_fetch_news env category region limit :
  keeps_files (fetch_news env category region limit).
Proof.
  intros w. rewrite fetch_news_run. cbv zeta.
  destruct (decoded _) as [[ | | | | | d]|]; try exact (caught_files _ _).
  destruct (takes_primary d); [reflexivity | exact (caught_files _ _)].
Qed.

Lemma keeps_files_summarize_article env article_text language :
  keeps_files (summarize_article env article_text language).
Proof. intros w. by rewrite summarize_article_run. Qed.

Lemma emits_uuid4 (P : event -> Prop) env :
  (forall id, P (EvUuid id)) -> emits P (uuid4 env).
Proof.
  intros HP. by apply (emits_one P _ (fun w => EvUuid (env_uuid4 env (log w)))).
Qed.

Lemma emits_process_article (P : event -> Prop) env language article :
  (forall ev, is_query ev -> P ev) -> emits P (process_article env language article).
Proof.
  intros HP. unfold process_article.
  repeat first
    [ apply emits_lift | apply emits_ret
    | apply emits_summarize_article; intros; by apply HP
    | apply emits_uuid4; intros; by apply HP
    | apply emits_bind; [|intros ?] ].
Qed.

Lemma keeps_files_process_article env language article :
  keeps_files (process_article env language article).
Proof.
  unfold process_article.
  repeat first
    [ apply keeps_files_lift | apply keeps_files_ret
    | apply keeps_files_summarize_article
    | apply keeps_files_bind; [|intros ?] ].
  by intros w.
Qed.

Lemma emits_get_news (P : event -> Prop) env args :
  (forall ev, is_query ev -> P ev) -> emits P (get_news env args).
Proof.
  intros HP. unfold get_news. apply emits_try_except; [|intros e; apply emits_ret].
  apply emits_bind; [apply emits_lift | intros limit].
  destruct (negb (Py.in_list _ _)); [apply emits_ret|].
  destruct (negb (in_LANG_MAP _)); [apply emits_ret|].
  apply emits_bind; [apply emits_fetch_news; intros; by apply HP | intros articles].
  destruct (negb (Py.truthy articles)); [apply emits_ret|].
  apply emits_bind; [apply emits_lift | intros items].
  apply emits_bind; [|intros records; apply emits_ret].
  apply emits_for_each. intros a. by apply emits_process_article.
Qed.

Lemma keeps_files_get_news env args : keeps_files (get_news env args).
Proof.
  unfold get_news. apply keeps_files_try_except; [|intros e; apply keeps_files_ret].
  apply keeps_files_bind; [apply keeps_files_lift | intros limit].
  destruct (negb (Py.in_list _ _)); [apply keeps_files_ret|].
  destruct (negb (in_LANG_MAP _)); [apply keeps_files_ret|].
  apply keeps_files_bind; [apply keeps_files_fetch_news | intros articles].
  destruct (negb (Py.truthy articles)); [apply keeps_files_ret|].
  apply keeps_files_bind; [apply keeps_files_lift | intros items].
  apply keeps_files_bind; [|intros records; apply keeps_files_ret].
  apply keeps_files_for_each. intros a. apply keeps_files_process_article.
Qed.

Lemma answers_try_except (S : Z -> Prop) (m : M response) (h : exn -> M response) :
  answers S m -> (forall e, answers S (h e)) -> answers S (try_except m h).
Proof.
  intros Hm Hh w r w'. unfold try_except.
  destruct (m w) as [[r1|e] w1] eqn:Hrun.
  - intros [= <- <-]. by apply (Hm w r1 w1).
  - apply Hh.
Qed.

Lemma answers_get_news env args :
  answers (fun code => code = 200 \/ code = 400 \/ code = 500) (get_news env args).
Proof.
  unfold get_news. apply answers_try_except; [|intros e; apply answers_ret; cbn; auto].
  apply answers_bind; intros limit.
  destruct (negb (Py.in_list _ _)); [apply answers_ret; cbn; auto|].
  destruct (negb (in_LANG_MAP _)); [apply answers_ret; cbn; auto|].
  apply answers_bind; intros articles.
  destruct (negb (Py.truthy articles)); [apply answers_ret; cbn; auto|].
  apply answers_bind; intros items. apply answers_bind; intros records.
  apply answers_ret; cbn; auto.
Qed.

(** X7: [/news] answers every request: the view never raises, the
    status is 200, 400 or 500, the files on disk are left alone, and the
    only calls to the outside are queries to the provider, chat
    requests, identifiers and log lines; never the synthesizer. *)
Theorem news_always_answers env args w :
  exists r w',
    get_news env args w = (Ret r, w')
    /\ (status r = 200 \/ status r = 400 \/ status r = 500)
    /\ fs w' = fs w
    /\ Forall is_query (events_since w w')
    /\ tts_calls (events_since w w') = [].
Proof.
  destruct (get_news env args w) as [[r|e] w'] eqn:Hrun.
  - exists r, w'. split; [reflexivity|].
    split; [exact (answers_get_news env args w r w' Hrun)|].
    pose proof (keeps_files_get_news env args w) as Hfiles.
    destruct (emits_get_news is_query env args (fun _ H => H) w) as (new & Hlog & Hnew).
    rewrite Hrun in Hfiles, Hlog. cbn [snd] in *.
    rewrite (events_since_app _ _ _ Hlog).
    split; [exact Hfiles|]. split; [exact Hnew|].
    apply no_synthesis_no_tts_calls. eapply Forall_impl; [exact Hnew|].
    by intros [].
  - exfalso. revert Hrun. unfold get_news, try_except.
    match goal with
    | |- context [match ?m w with _ => _ end] => destruct (m w) as [[r1|e1] w1]
    end; discriminate.
Qed.

Lemma listing_content_text d :
  listing_content (VDict d) (listing_title d) = Ret (listing_text d).
Proof.
  unfold listing_content, listing_text. cbn [Py.get obind].
  unfold default, from_option, id.
  destruct (Py.truthy _); [reflexivity|]. by destruct (Py.truthy _).
Qed.

(** One turn of the loop on a well-formed article: one chat request for
    its text, one identifier, and the record. *)
Lemma process_article_run env language d w :
  article_ok (VDict d) = true ->
  exists id summary,
    process_article env language (VDict d) w =
      (Ret (VDict [("id", VStr id);
                   ("title", listing_title d);
                   ("source", listing_source d);
                   ("summary", VStr summary);
                   ("sentiment", VStr "Neutral");
                   ("url", default VNone (Py.assoc "url" d));
                   ("image", default VNone (Py.assoc "urlToImage" d));
                   ("publishedAt", default VNone (Py.assoc "publishedAt" d))]),
       add_event (EvUuid id)
         (add_event (EvChat (summary_request env (listing_text d) (VStr language))) w)).
Proof.
  intros Hok. unfold process_article. cbn [Py.get].
  unfold bind at 1, lift at 1. unfold bind at 1, lift at 1.
  assert (Hsource : exists source,
            Py.get (default (VDict []) (Py.assoc "source" d)) "name" (VStr "Unknown")
              = Ret source /\ source = listing_source d).
  { unfold article_ok in Hok. unfold listing_source.
    destruct (Py.assoc "source" d) as [[ | | | | | src]|]; try discriminate; cbn; eauto. }
  destruct Hsource as (source & Hget & ->).
  unfold default, from_option, id in Hget. rewrite Hget.
  unfold bind at 1, lift at 1. unfold bind at 1, lift at 1.
  pose proof (listing_content_text d) as Htext.
  unfold listing_title, default, from_option, id in Htext. rewrite Htext.
  unfold bind at 1. rewrite summarize_article_run.
  unfold bind, uuid4, lift, ret. cbn [log add_event].
  eexists _, _. reflexivity.
Qed.

Lemma process_article_raises env language a w :
  article_ok a = false -> exists e, process_article env language a w = (Raise e, w).
Proof.
  unfold article_ok, process_article.
  destruct a as [ | | | | | d]; try (intros _; eexists; reflexivity).
  cbn [Py.get]. unfold bind at 1, lift at 1. unfold bind at 1, lift at 1.
  destruct (Py.assoc "source" d) as [[ | | | | | src]|]; try discriminate;
    intros _; eexists; reflexivity.
Qed.

(** The loop of the listing view over well-formed articles. *)
Lemma listing_loop env language l :
  forallb article_ok l = true ->
  forall w, exists records w' new,
    for_each (process_article env language) l w = (Ret records, w')
    /\ Forall2 is_record_of l records
    /\ log w' = log w ++ new
    /\ chat_requests new
       = map (fun a => summary_request env (article_text a) (VStr language)) l.
Proof.
  induction l as [|a l IH]; intros Hok w.
  - exists [], w, []. split; [reflexivity|]. split; [constructor|].
    split; [by rewrite app_nil_r | reflexivity].
  - cbn [forallb] in Hok. apply andb_true_iff in Hok as [Ha Hl].
    destruct a as [ | | | | | d]; try discriminate.
    destruct (process_article_run env language d w Ha) as (id & summary & Hrun).
    destruct (IH Hl (add_event (EvUuid id)
                       (add_event (EvChat (summary_request env (listing_text d) (VStr language))) w)))
      as (records & w' & new & Hloop & Hrecords & Hlog & Hchat).
    eexists (_ :: records), w',
      (EvChat (summary_request env (listing_text d) (VStr language)) :: EvUuid id :: new).
    cbn [for_each]. unfold bind at 1. rewrite Hrun. unfold bind at 1. rewrite Hloop.
    split; [reflexivity|]. split.
    + constructor; [|exact Hrecords]. by exists d, id, summary.
    + split.
      * rewrite Hlog. cbn [log add_event]. by rewrite <- !app_assoc.
      * change (summary_request env (listing_text d) (VStr language) :: chat_requests new
                = summary_request env (listing_text d) (VStr language)
                    :: map (fun a => summary_request env (article_text a) (VStr language)) l).
        by rewrite Hchat.
Qed.

Lemma listing_loop_raises env language l :
  forallb article_ok l = false ->
  forall w, exists e w', for_each (process_article env language) l w = (Raise e, w').
Proof.
  induction l as [|a l IH]; intros Hbad w; [discriminate|].
  cbn [forallb] in Hbad. cbn [for_each]. unfold bind at 1.
  destruct (article_ok a) eqn:Ha.
  - destruct (process_article_returns env language a w Ha) as (v & w1 & ->).
    destruct (IH Hbad w1) as (e & w' & Hloop).
    unfold bind at 1. rewrite Hloop. eauto.
  - destruct (process_article_raises env language a w Ha) as (e & ->). eauto.
Qed.

Lemma no_chat_requests (l : list event) :
  Forall (fun ev => forall req, ev <> EvChat req) l -> chat_requests l = [].
Proof.
  induction 1 as [|ev l Hev _ IH]; [reflexivity|].
  unfold chat_requests in *. cbn [omap]. destruct ev; try exact IH. by destruct (Hev req).
Qed.

(** [fetch_news] starts with the headlines query and asks the chat
    model nothing. *)
Lemma fetch_news_no_chat env category region limit w :
  exists articles w1 new,
    fetch_news env category region limit w = (Ret articles, w1)
    /\ log w1 = log w ++ EvHttpGet (top_headlines_url env category region limit) 10 :: new
    /\ chat_requests new = [].
Proof.
  destruct (fetch_news_first_call env category region limit w)
    as (articles & w1 & new & Hrun & Hlog & _).
  destruct (emits_fetch_news (fun ev => forall req, ev <> EvChat req)
              env category region limit) with (w := w) as (all & Hall & Hquiet);
    [discriminate | discriminate |].
  rewrite Hrun in Hall. cbn [snd] in Hall. rewrite Hlog in Hall.
  apply app_inv_head in Hall. subst all.
  exists articles, w1, new. split; [exact Hrun|]. split; [exact Hlog|].
  apply no_chat_requests. by inversion Hquiet.
Qed.

(** The listing view on a non-empty list of well-formed articles. *)
Lemma get_news_records env args w limit l w1 :
  parse_limit env args = Ret limit ->
  news_category args ∈ valid_categories ->
  is_Some (LANG_MAP !! news_language args) ->
  fetch_news env (VStr (news_category args)) (VStr (news_region args)) (VInt limit) w
    = (Ret (VList l), w1) ->
  l <> [] ->
  forallb article_ok l = true ->
  exists records w' new,
    get_news env args w =
      (Ret (jsonify (VDict [("region", VStr (news_region args));
                            ("category", VStr (news_category args));
                            ("language", VStr (news_language args));
                            ("total", VInt (Z.of_nat (length records)));
                            ("articles", VList records)]) 200), w')
    /\ Forall2 is_record_of l records
    /\ log w' = log w1 ++ new
    /\ chat_requests new
       = map (fun a => summary_request env (article_text a) (VStr (news_language args))) l.
Proof.
  intros Hlimit Hcat Hlang Hrun Hne Hok.
  rewrite (get_news_after_fetch _ _ _ _ _ _ Hlimit Hcat Hlang Hrun).
  destruct (listing_loop env (news_language args) l Hok w1)
    as (records & w' & new & Hloop & Hrecords & Hlog & Hchat).
  exists records, w', new.
  destruct l as [|a l]; [done|].
  cbn [Py.truthy negb Py.iter]. unfold try_except, bind, lift. rewrite Hloop.
  by repeat split.
Qed.

(** X8: a [/news] request that passes validation starts with the
    headlines query, whose URL carries the region and the category as
    they were given and the limit in decimal: the region is neither
    checked nor escaped, the limit is not bounded. *)
Theorem news_forwards_parameters env args w limit :
  parse_limit env args = Ret limit ->
  news_category args ∈ valid_categories ->
  is_Some (LANG_MAP !! news_language args) ->
  exists rest,
    events_since w (snd (get_news env args w)) =
      EvHttpGet ("https://newsapi.org/v2/top-headlines?country=" +:+ news_region args
                 +:+ "&category=" +:+ news_category args
                 +:+ "&pageSize=" +:+ pretty limit
                 +:+ "&apiKey=" +:+ NEWS_API_KEY env) 10 :: rest.
Proof.
  intros Hlimit Hcat Hlang.
  destruct (fetch_news_first_call env (VStr (news_category args)) (VStr (news_region args))
              (VInt limit) w) as (articles & w1 & new & Hrun & Hlog & _).
  rewrite (get_news_after_fetch _ _ _ _ _ _ Hlimit Hcat Hlang Hrun).
  match goal with
  | |- context [snd (?m w1)] =>
      assert (Htail : emits (fun _ => True) m)
  end.
  { apply emits_try_except; [|intros e; apply emits_ret].
    destruct (negb (Py.truthy articles)); [apply emits_ret|].
    apply emits_bind; [apply emits_lift | intros items].
    apply emits_bind; [|intros records; apply emits_ret].
    apply emits_for_each. intros a. by apply emits_process_article. }
  destruct (Htail w1) as (more & Hmore & _).
  exists (new ++ more). apply events_since_app.
  rewrite Hmore, Hlog, <- app_assoc. reflexivity.
Qed.

Lemma news_forwards_parameters_witness :
  exists rest,
    events_since Scenario.w0
      (snd (get_news Scenario.headlines
              [("region", "us&sortBy=popularity"); ("limit", " -0_3 ")] Scenario.w0)) =
      EvHttpGet
        "https://newsapi.org/v2/top-headlines?country=us&sortBy=popularity&category=general&pageSize=-3&apiKey=809a78470dbf4902bcbba81cae58b192"
        10 :: rest.
Proof.
  apply (news_forwards_parameters Scenario.headlines
           [("region", "us&sortBy=popularity"); ("limit", " -0_3 ")] Scenario.w0 (-3)).
  - reflexivity.
  - apply in_list_spec. reflexivity.
  - by eexists.
Defined.

(** X9: on a list of well-formed articles the listing view asks the
    chat model once per article, in the order of the list, each time
    with model "gpt-3.5-turbo", at most 600 tokens, time-out 30 and the
    prompt, spelled out in [request_for], that names the language of
    the request and carries the article's description, else content,
    else title. *)
Theorem news_one_request_per_article env args w limit l :
  parse_limit env args = Ret limit ->
  news_category args ∈ valid_categories ->
  is_Some (LANG_MAP !! news_language args) ->
  fst (fetch_news env (VStr (news_category args)) (VStr (news_region args))
         (VInt limit) w) = Ret (VList l) ->
  forallb article_ok l = true ->
  chat_requests (events_since w (snd (get_news env args w)))
    = map (fun a => request_for (news_language args) (Py.str env (article_text a))) l.
Proof.
  intros Hlimit Hcat Hlang Hfetch Hok.
  change (chat_requests (events_since w (snd (get_news env args w)))
          = map (fun a => summary_request env (article_text a) (VStr (news_language args))) l).
  destruct (fetch_news_no_chat env (VStr (news_category args)) (VStr (news_region args))
              (VInt limit) w) as (articles & w1 & new & Hrun & Hlog & Hquiet).
  rewrite Hrun in Hfetch. cbn [fst] in Hfetch. injection Hfetch as ->.
  destruct (decide (l = [])) as [->|Hne].
  - rewrite (get_news_after_fetch _ _ _ _ _ _ Hlimit Hcat Hlang Hrun).
    cbn [Py.truthy negb try_except ret snd map]. unfold try_except, ret. cbn [snd].
    rewrite (events_since_app _ _ _ Hlog). exact Hquiet.
  - destruct (get_news_records _ _ _ _ _ _ Hlimit Hcat Hlang Hrun Hne Hok)
      as (records & w' & more & -> & _ & Hmore & Hchat).
    cbn [snd]. rewrite Hlog in Hmore. rewrite <- app_assoc in Hmore.
    rewrite (events_since_app _ _ _ Hmore).
    change (chat_requests (new ++ more) = map (fun a => summary_request env (article_text a)
                                                 (VStr (news_language args))) l).
    unfold chat_requests in *. by rewrite omap_app, Hquiet, Hchat.
Qed.

Lemma news_one_request_per_article_witness :
  chat_requests
    (events_since Scenario.w0
       (snd (get_news Scenario.headlines [("category", "sports"); ("language", "Hindi")]
               Scenario.w0)))
    = [ChatRequest "gpt-3.5-turbo" "
    Summarize the following news article into:
    1. A short paragraph of 2–3 complete sentences.
    2. Two bullet points highlighting the most important details.

    The summary must be in Hindi.

    Article: The central bank raised rates.
    " 600 30;
       ChatRequest "gpt-3.5-turbo" "
    Summarize the following news article into:
    1. A short paragraph of 2–3 complete sentences.
    2. Two bullet points highlighting the most important details.

    The summary must be in Hindi.

    Article: The home side won on penalties.
    " 600 30].
Proof.
  apply (news_one_request_per_article Scenario.headlines
           [("category", "sports"); ("language", "Hindi")] Scenario.w0 5
           Scenario.two_articles).
  - reflexivity.
  - apply in_list_spec. reflexivity.
  - by eexists.
  - reflexivity.
  - reflexivity.
Defined.

(** X10: on a non-empty list of well-formed articles the answer of the
    listing view echoes region, category and language, counts the
    articles in [total], and holds one record per article, in order:
    the title (default "Untitled"), the name of the source (default
    "Unknown"), the constant sentiment "Neutral", and the url, image and
    date of the article, null when absent. *)
Theorem news_records env args w limit l :
  parse_limit env args = Ret limit ->
  news_category args ∈ valid_categories ->
  is_Some (LANG_MAP !! news_language args) ->
  fst (fetch_news env (VStr (news_category args)) (VStr (news_region args))
         (VInt limit) w) = Ret (VList l) ->
  l <> [] ->
  forallb article_ok l = true ->
  exists records,
    payload_of (get_news env args w) =
      Some (VDict [("region", VStr (news_region args));
                   ("category", VStr (news_category args));
                   ("language", VStr (news_language args));
                   ("total", VInt (Z.of_nat (length l)));
                   ("articles", VList records)])
    /\ Forall2 is_record_of l records.
Proof.
  intros Hlimit Hcat Hlang Hfetch Hne Hok.
  destruct (fetch_news env _ _ _ w) as [o w1] eqn:Hrun. cbn [fst] in Hfetch. subst o.
  destruct (get_news_records _ _ _ _ _ _ Hlimit Hcat Hlang Hrun Hne Hok)
    as (records & w' & more & -> & Hrecords & _ & _).
  exists records. split; [|exact Hrecords].
  unfold payload_of. cbn. by rewrite (Forall2_length _ _ _ Hrecords).
Qed.

Lemma news_records_witness :
  exists records,
    payload_of (get_news Scenario.headlines [("category", "sports"); ("region", "gb")]
                  Scenario.w0) =
      Some (VDict [("region", VStr "gb");
                   ("category", VStr "sports");
                   ("language", VStr "English");
                   ("total", VInt 2);
                   ("articles", VList records)])
    /\ Forall2 is_record_of Scenario.two_articles records.
Proof.
  apply (news_records Scenario.headlines [("category", "sports"); ("region", "gb")]
           Scenario.w0 5 Scenario.two_articles).
  - reflexivity.
  - apply in_list_spec. reflexivity.
  - by eexists.
  - reflexivity.
  - discriminate.
  - reflexivity.
Defined.

(** X11: when one fetched article is not an object, or has a source
    that is not an object, the listing view answers 500 with only an
    error text: the records built before it are dropped. *)
Theorem news_malformed_article env args w limit l :
  parse_limit env args = Ret limit ->
  news_category args ∈ valid_categories ->
  is_Some (LANG_MAP !! news_language args) ->
  fst (fetch_news env (VStr (news_category args)) (VStr (news_region args))
         (VInt limit) w) = Ret (VList l) ->
  forallb article_ok l = false ->
  status_of (get_news env args w) = Some 500
  /\ exists text, payload_of (get_news env args w) = Some (VDict [("error", VStr text)]).
Proof.
  intros Hlimit Hcat Hlang Hfetch Hbad.
  destruct (fetch_news env _ _ _ w) as [o w1] eqn:Hrun. cbn [fst] in Hfetch. subst o.
  rewrite (get_news_after_fetch _ _ _ _ _ _ Hlimit Hcat Hlang Hrun).
  destruct l as [|a l]; [discriminate|].
  destruct (listing_loop_raises env (news_language args) (a :: l) Hbad w1)
    as (e & w' & Hloop).
  cbn [Py.truthy negb Py.iter]. unfold try_except, bind, lift. rewrite Hloop.
  split; [reflexivity|]. by exists (exn_msg e).
Qed.

Lemma news_malformed_article_witness :
  status_of (get_news Scenario.one_bad_article [] Scenario.w0) = Some 500
  /\ exists text,
       payload_of (get_news Scenario.one_bad_article [] Scenario.w0)
         = Some (VDict [("error", VStr text)]).
Proof.
  apply (news_malformed_article Scenario.one_bad_article [] Scenario.w0 5
           [Scenario.article "Rates rise" "The central bank raised rates.";
            VStr "advertisement"]).
  - reflexivity.
  - apply in_list_spec. reflexivity.
  - by eexists.
  - reflexivity.
  - reflexivity.
Defined.

(** ** Further properties of the summarizer *)

(** X16: when the chat model answers with an object whose first choice
    holds a message with a string content, [summarize_article] returns
    that content as [str.strip()] leaves it (later choices are not
    looked at), after exactly one request: model "gpt-3.5-turbo", the
    prompt spelled out in [request_for] with the language and the text
    as [str()] renders them, at most 600 tokens, time-out 30. *)
Theorem summarize_article_success env article_text language w
    response choice others message content :
  env_chat_create env (log w)
    (request_for (Py.str env language) (Py.str env article_text)) = Ret response ->
  obj_attr response "choices" = Ret (VList (choice :: others)) ->
  obj_attr choice "message" = Ret message ->
  Py.getitem message "content" = Ret (VStr content) ->
  summarize_article env article_text language w =
    (Ret (builtin_strip env content),
     add_event (EvChat (request_for (Py.str env language) (Py.str env article_text))) w).
Proof.
  intros Hreply Hchoices Hmessage Hcontent.
  rewrite summarize_article_run.
  change (summary_request env article_text language)
    with (request_for (Py.str env language) (Py.str env article_text)).
  unfold chat_outcome, obind. rewrite Hreply.
  unfold completion_text, obind. rewrite Hchoices. cbn [index0].
  by rewrite Hmessage, Hcontent.
Qed.

Lemma summarize_article_success_witness :
  summarize_article Scenario.headlines (VStr "The central bank raised rates.")
    (VStr "Tamil") Scenario.w0
  = (Ret "Rates went up.",
     {| log := [EvChat (ChatRequest "gpt-3.5-turbo" "
    Summarize the following news article into:
    1. A short paragraph of 2–3 complete sentences.
    2. Two bullet points highlighting the most important details.

    The summary must be in Tamil.

    Article: The central bank raised rates.
    " 600 30)];
        fs := ∅ |}).
Proof.
  apply (summarize_article_success Scenario.headlines
           (VStr "The central bank raised rates.") (VStr "Tamil") Scenario.w0
           (Scenario.completion " Rates went up. ")
           (VDict [("index", VInt 0);
                   ("message", VDict [("role", VStr "assistant");
                                      ("content", VStr " Rates went up. ")])])
           []
           (VDict [("role", VStr "assistant"); ("content", VStr " Rates went up. ")])
           " Rates went up. " eq_refl eq_refl eq_refl eq_refl).
Defined.

(** ** Further properties of the speech and briefing views *)

Lemma replies_ret {A} (Q : A -> Prop) (a : A) : Q a -> replies Q (ret a).
Proof. intros HQ w a' w' [= <- _]. exact HQ. Qed.

Lemma replies_bind {A B} (Q : B -> Prop) (m : M A) (k : A -> M B) :
  (forall a, replies Q (k a)) -> replies Q (bind m k).
Proof.
  intros Hk w b w'. unfold bind. destruct (m w) as [[a|e] w1]; [apply Hk | discriminate].
Qed.

Lemma replies_audio_response env path header :
  replies (is_audio_answer env) (audio_response env path header).
Proof.
  intros w r w' Hrun.
  destruct (audio_response_shape _ _ _ _ _ _ Hrun) as (Hstatus & Hbody & _ & Hclose & _).
  split; [exact Hstatus|]. by exists path.
Qed.

(** The synthesizer is called once; the rest of [generate_tts] is file
    work and at most a printed line. *)
Lemma generate_tts_one_call env text lang_code w :
  exists p w' rest,
    generate_tts env text lang_code w = (Ret p, w')
    /\ log w' = log w ++ EvGTTS text lang_code :: rest
    /\ tts_calls rest = []
    /\ chat_requests rest = [].
Proof.
  rewrite generate_tts_run. cbv zeta.
  destruct (env_gtts_init env (log w) text lang_code) as [e|].
  { eexists _, _, [_]. split; [reflexivity|].
    split; [cbn [log add_event]; by rewrite <- app_assoc | by split]. }
  destruct (find _ _) as [path|].
  2: { eexists _, _, [_]. split; [reflexivity|].
       split; [cbn [log add_event]; by rewrite <- app_assoc | by split]. }
  destruct (env_gtts_save env _ text lang_code path) as [e|].
  - eexists _, _, [_; _; _]. split; [reflexivity|].
    split; [cbn [log add_event set_fs]; by rewrite <- !app_assoc | by split].
  - eexists _, _, [_; _]. split; [reflexivity|].
    split; [cbn [log add_event set_fs]; by rewrite <- !app_assoc | by split].
Qed.

(** The list comprehension of the briefing view over articles whose
    fallback chain does not raise: one chat request per article, and
    the summaries are what [summarize_article] returned, in order. *)
Lemma briefing_loop env language l :
  Forall (fun a => exists content, briefing_content a = Ret content) l ->
  forall w, exists w',
    for_each (briefing_summary env language) l w = (Ret (summaries_of env language l w), w')
    /\ length (summaries_of env language l w) = length l
    /\ log w' = log w ++ map (fun a => EvChat (summary_request env (briefing_text a) language)) l.
Proof.
  induction 1 as [|a l [content Hcontent] _ IH]; intros w.
  - exists w. split; [reflexivity|]. split; [reflexivity | by rewrite app_nil_r].
  - assert (Htext : briefing_text a = content).
    { unfold briefing_text. by rewrite Hcontent. }
    cbn [summaries_of map]. rewrite Htext, summarize_article_run. cbn [fst snd].
    destruct (IH (add_event (EvChat (summary_request env content language)) w))
      as (w' & Hloop & Hlen & Hlog).
    exists w'.
    cbn [for_each]. unfold bind at 1, briefing_summary at 1, bind at 1, lift at 1.
    rewrite Hcontent, summarize_article_run. unfold bind at 1. rewrite Hloop.
    split; [reflexivity|]. split; [cbn [length]; by rewrite Hlen|].
    rewrite Hlog. cbn [log add_event]. by rewrite <- app_assoc.
Qed.

Lemma chat_requests_app (l1 l2 : list event) :
  chat_requests (l1 ++ l2) = chat_requests l1 ++ chat_requests l2.
Proof. apply omap_app. Qed.

Lemma tts_calls_app (l1 l2 : list event) :
  tts_calls (l1 ++ l2) = tts_calls l1 ++ tts_calls l2.
Proof. apply omap_app. Qed.

Lemma chat_requests_of_chats {A} (f : A -> chat_request) (l : list A) :
  chat_requests (map (fun a => EvChat (f a)) l) = map f l.
Proof.
  induction l as [|a l IH]; [reflexivity|].
  change (f a :: chat_requests (map (fun a => EvChat (f a)) l) = f a :: map f l).
  by rewrite IH.
Qed.

Lemma tts_calls_of_chats {A} (f : A -> chat_request) (l : list A) :
  tts_calls (map (fun a => EvChat (f a)) l) = [].
Proof. induction l as [|a l IH]; [reflexivity | exact IH]. Qed.

(** X12: when the fetcher returns a non-empty list of articles whose
    fallback chain does not raise and the language resolves to a code,
    the briefing view asks the chat model once per article, in order,
    and then calls the synthesizer exactly once, with that code and
    with the introduction followed by the summaries, one per article,
    that [summarize_article] returned, joined by single spaces. *)
Theorem briefing_speaks_all_summaries env d w l code :
  fst (fetch_news env (briefing_category d) (briefing_region d) (briefing_limit d) w)
    = Ret (VList l) ->
  l <> [] ->
  Forall (fun a => exists content, briefing_content a = Ret content) l ->
  LANG_MAP_get (briefing_language d) "en" = Ret code ->
  length (summaries_of env (briefing_language d) l
            (snd (fetch_news env (briefing_category d) (briefing_region d)
                    (briefing_limit d) w))) = length l
  /\ chat_requests (events_since w (snd (daily_briefing env (VDict d) w)))
     = map (fun a => request_for (Py.str env (briefing_language d))
                       (Py.str env (briefing_text a))) l
  /\ tts_calls (events_since w (snd (daily_briefing env (VDict d) w)))
     = [(VStr (("Good morning! Here are today's top " +:+ Py.str env (briefing_category d)
                +:+ " news from " +:+ Py.str env (briefing_region d) +:+ ". ")
               +:+ Py.join " "
                     (summaries_of env (briefing_language d) l
                        (snd (fetch_news env (briefing_category d) (briefing_region d)
                                (briefing_limit d) w)))), code)].
Proof.
  intros Hfetch Hne Hcontent Hcode.
  change (fun a => request_for (Py.str env (briefing_language d))
                     (Py.str env (briefing_text a)))
    with (fun a => summary_request env (briefing_text a) (briefing_language d)).
  fold (briefing_intro env (briefing_category d) (briefing_region d)).
  destruct (fetch_news_no_chat env (briefing_category d) (briefing_region d)
              (briefing_limit d) w) as (articles & w1 & new & Hrun & Hlog & Hquiet).
  destruct (fetch_news_first_call env (briefing_category d) (briefing_region d)
              (briefing_limit d) w) as (articles' & w1' & new' & Hrun' & Hlog' & Hsilent).
  rewrite Hrun in Hrun'. injection Hrun' as <- <-.
  rewrite Hlog in Hlog'. apply app_inv_head in Hlog'. injection Hlog' as <-.
  apply no_synthesis_no_tts_calls in Hsilent.
  rewrite Hrun in Hfetch |- *. cbn [fst snd] in Hfetch |- *. injection Hfetch as ->.
  destruct (briefing_loop env (briefing_language d) l Hcontent w1)
    as (w2 & Hloop & Hlen & Hlog2).
  split; [exact Hlen|].
  set (summaries := summaries_of env (briefing_language d) l w1) in *.
  destruct (generate_tts_one_call env
              (VStr (briefing_intro env (briefing_category d) (briefing_region d)
                     +:+ Py.join " " summaries)) code w2)
    as (p & w3 & rest & Hgen & Hlog3 & Hrest_tts & Hrest_chat).
  assert (Hend : exists more,
            log (snd (daily_briefing env (VDict d) w)) = log w3 ++ more
            /\ tts_calls more = [] /\ chat_requests more = []).
  { rewrite daily_briefing_run. unfold bind at 1. rewrite Hrun.
    unfold briefing_of_articles. destruct l as [|a l]; [done|].
    cbn [Py.truthy negb Py.iter]. unfold bind at 1, lift at 1.
    unfold bind at 1. rewrite Hloop. unfold bind at 1, lift at 1. rewrite Hcode.
    unfold bind at 1.
    fold (briefing_intro env (briefing_category d) (briefing_region d)).
    rewrite Hgen.
    destruct p as [path|]; [|exists []; by rewrite app_nil_r].
    destruct (path_falsy _); [exists []; by rewrite app_nil_r|].
    destruct (emits_audio_response (fun ev => ev = EvSendFile path) env path
                ("X-Audio-Type", "daily-briefing") eq_refl w3) as (more & Hmore & Hsend).
    exists more. split; [exact Hmore|].
    clear -Hsend. induction Hsend as [|ev more -> _ [IH1 IH2]]; by split. }
  destruct Hend as (more & Hlog4 & Hmore_tts & Hmore_chat).
  rewrite Hlog3, Hlog2, Hlog in Hlog4.
  rewrite <- !app_assoc in Hlog4. rewrite (events_since_app _ _ _ Hlog4).
  change (chat_requests
            (new ++ map (fun a => EvChat (summary_request env (briefing_text a)
                                           (briefing_language d))) l
                 ++ (EvGTTS (VStr (briefing_intro env (briefing_category d) (briefing_region d)
                                    +:+ Py.join " " summaries)) code :: rest) ++ more)
            = map (fun a => summary_request env (briefing_text a) (briefing_language d)) l
          /\ tts_calls
               (new ++ map (fun a => EvChat (summary_request env (briefing_text a)
                                              (briefing_language d))) l
                    ++ (EvGTTS (VStr (briefing_intro env (briefing_category d) (briefing_region d)
                                       +:+ Py.join " " summaries)) code :: rest) ++ more)
             = [(VStr (briefing_intro env (briefing_category d) (briefing_region d)
                       +:+ Py.join " " summaries), code)]).
  split.
  - rewrite !chat_requests_app, Hquiet, Hmore_chat, chat_requests_of_chats.
    change (chat_requests (EvGTTS ?t ?c :: rest)) with (chat_requests rest).
    by rewrite Hrest_chat, !app_nil_r.
  - rewrite !tts_calls_app, Hsilent, Hmore_tts, tts_calls_of_chats.
    change (tts_calls (EvGTTS ?t ?c :: rest)) with ((t, c) :: tts_calls rest).
    by rewrite Hrest_tts.
Qed.

Lemma briefing_speaks_all_summaries_witness :
  length (summaries_of Scenario.headlines (VStr "Hindi") Scenario.two_articles
            (snd (fetch_news Scenario.headlines (VStr "general") (VStr "gb") (VInt 5)
                    Scenario.w0))) = 2%nat
  /\ chat_requests
       (events_since Scenario.w0
          (snd (daily_briefing Scenario.headlines
                  (VDict [("language", VStr "Hindi"); ("region", VStr "gb")])
                  Scenario.w0)))
     = [request_for "Hindi" "The central bank raised rates.";
        request_for "Hindi" "The home side won on penalties."]
  /\ tts_calls
       (events_since Scenario.w0
          (snd (daily_briefing Scenario.headlines
                  (VDict [("language", VStr "Hindi"); ("region", VStr "gb")])
                  Scenario.w0)))
     = [(VStr "Good morning! Here are today's top general news from gb. Rates went up. Rates went up.",
         "hi")].
Proof.
  apply (briefing_speaks_all_summaries Scenario.headlines
           [("language", VStr "Hindi"); ("region", VStr "gb")] Scenario.w0
           Scenario.two_articles "hi").
  - reflexivity.
  - discriminate.
  - repeat constructor; eexists; reflexivity.
  - reflexivity.
Defined.

(** The speech view past its test of the text. *)
Lemma get_tts_speaks env d w text code :
  Py.assoc "text" d = Some text ->
  Py.truthy text = true ->
  LANG_MAP_get (default (VStr "English") (Py.assoc "language" d)) "en" = Ret code ->
  exists rest,
    events_since w (snd (get_tts env (VDict d) w)) = EvGTTS text code :: rest
    /\ Forall (speaks code) rest.
Proof.
  intros Htext Htruthy Hcode.
  unfold get_tts. cbn [Py.get]. unfold bind at 1, lift at 1. unfold bind at 1, lift at 1.
  unfold default, from_option, id in Hcode.
  rewrite Htext, Htruthy. cbn [negb]. unfold bind at 1, lift at 1. rewrite Hcode.
  unfold bind at 1.
  destruct (generate_tts_first_call env text code w) as (p & w1 & rest & Hrun & Hlog & Hrest).
  rewrite Hrun.
  assert (Hdone : forall r, exists rest',
             events_since w (snd (ret (A := response) r w1)) = EvGTTS text code :: rest'
             /\ Forall (speaks code) rest').
  { intros r. exists rest. cbn [ret snd]. by rewrite (events_since_app _ _ _ Hlog). }
  destruct p as [path|]; [|apply Hdone].
  destruct (path_falsy _); [apply Hdone|].
  destruct (emits_audio_response (speaks code) env path ("X-Audio-File", basename path) I w1)
    as (new & Hlog' & Hnew).
  exists (rest ++ new). split.
  - apply events_since_app. rewrite Hlog', Hlog, <- app_assoc. reflexivity.
  - by apply Forall_app.
Qed.

(** X13: [/tts] with a text speaks English whenever the language is
    absent, null, a boolean, a number, or a string that is no key of
    the language map: the synthesizer is called with the text and the
    code "en", and no request is refused for its language. *)
Theorem tts_language_defaults_to_english env d w text :
  Py.assoc "text" d = Some text ->
  Py.truthy text = true ->
  match Py.assoc "language" d with
  | Some (VStr language) => LANG_MAP !! language = None
  | Some (VList _) | Some (VDict _) => False
  | _ => True
  end ->
  exists rest,
    events_since w (snd (get_tts env (VDict d) w)) = EvGTTS text "en" :: rest
    /\ Forall (speaks "en") rest.
Proof.
  intros Htext Htruthy Hlanguage. apply get_tts_speaks; [assumption | assumption |].
  destruct (Py.assoc "language" d) as [[ | | | language | | ]|];
    try reflexivity; try contradiction.
  cbn [default from_option id LANG_MAP_get]. by rewrite Hlanguage.
Qed.

Lemma tts_language_defaults_to_english_witness :
  (exists rest,
     events_since Scenario.w0
       (snd (get_tts Scenario.headlines
               (VDict [("text", VStr "Bonjour"); ("language", VStr "French")]) Scenario.w0))
       = EvGTTS (VStr "Bonjour") "en" :: rest
     /\ Forall (speaks "en") rest)
  /\ (exists rest,
        events_since Scenario.w0
          (snd (get_tts Scenario.headlines (VDict [("text", VInt 42)]) Scenario.w0))
          = EvGTTS (VInt 42) "en" :: rest
        /\ Forall (speaks "en") rest).
Proof.
  split.
  - apply (tts_language_defaults_to_english Scenario.headlines
             [("text", VStr "Bonjour"); ("language", VStr "French")] Scenario.w0
             (VStr "Bonjour")); reflexivity.
  - apply (tts_language_defaults_to_english Scenario.headlines
             [("text", VInt 42)] Scenario.w0 (VInt 42)); [reflexivity | reflexivity | exact I].
Defined.



Lemma replies_json env payload code :
  code = 400 \/ code = 500 ->
  replies (fun r => is_audio_answer env r \/ is_json_answer r 400 \/ is_json_answer r 500)
    (ret (jsonify payload code)).
Proof.
  intros [-> | ->]; apply replies_ret; [right; left | right; right]; by exists payload.
Qed.

Lemma replies_speech_views env data :
  replies (fun r => is_audio_answer env r \/ is_json_answer r 400 \/ is_json_answer r 500)
    (get_tts env data)
  /\ replies (fun r => is_audio_answer env r \/ is_json_answer r 400 \/ is_json_answer r 500)
       (daily_briefing env data).
Proof.
  split.
  - unfold get_tts. apply replies_bind; intros text. apply replies_bind; intros language.
    destruct (negb (Py.truthy text)); [apply replies_json; auto|].
    apply replies_bind; intros lang_code. apply replies_bind; intros temp_file_path.
    destruct temp_file_path as [path|]; [|apply replies_json; auto].
    destruct (path_falsy _); [apply replies_json; auto|].
    intros w r w' Hrun. left. exact (replies_audio_response _ _ _ _ _ _ Hrun).
  - unfold daily_briefing. apply replies_bind; intros category.
    apply replies_bind; intros region. apply replies_bind; intros language.
    apply replies_bind; intros limit. apply replies_bind; intros articles.
    unfold briefing_of_articles.
    destruct (negb (Py.truthy articles)); [apply replies_json; auto|].
    apply replies_bind; intros items. apply replies_bind; intros summaries.
    apply replies_bind; intros lang_code. apply replies_bind; intros temp_file_path.
    destruct temp_file_path as [path|]; [|apply replies_json; auto].
    destruct (path_falsy _); [apply replies_json; auto|].
    intros w r w' Hrun. left. exact (replies_audio_response _ _ _ _ _ _ Hrun).
Qed.

(** X15: every response of [/tts] and [/briefing] is either the audio
    answer (status 200, the temporary file as body, its cleanup as the
    one function to run on close) or a JSON answer with status 400 or
    500 and nothing to run on close: a cleanup is registered exactly
    when a file is served. *)
Theorem cleanup_registered_iff_audio env data w r w' :
  get_tts env data w = (Ret r, w') \/ daily_briefing env data w = (Ret r, w') ->
  (is_audio_answer env r \/ is_json_answer r 400 \/ is_json_answer r 500)
  /\ (status r = 200 <-> on_close r <> []).
Proof.
  intros Hrun.
  assert (Hshape : is_audio_answer env r \/ is_json_answer r 400 \/ is_json_answer r 500).
  { destruct Hrun as [Hrun|Hrun].
    - exact (proj1 (replies_speech_views env data) _ _ _ Hrun).
    - exact (proj2 (replies_speech_views env data) _ _ _ Hrun). }
  split; [exact Hshape|].
  destruct Hshape as [[Hstatus (path & _ & Hclose)]|[[payload ->]|[payload ->]]].
  - rewrite Hclose. by split.
  - cbn. split; [discriminate | done].
  - cbn. split; [discriminate | done].
Qed.

Lemma cleanup_registered_iff_audio_witness :
  (is_audio_answer Scenario.headlines
     (call_on_close (cleanup Scenario.headlines "/tmp/tmpk3v9x2ab.mp3")
        (set_header "X-Audio-Type" "daily-briefing"
           (Response 200 (FileBody "/tmp/tmpk3v9x2ab.mp3" "audio/mp3") [] [])))
   \/ is_json_answer
        (call_on_close (cleanup Scenario.headlines "/tmp/tmpk3v9x2ab.mp3")
           (set_header "X-Audio-Type" "daily-briefing"
              (Response 200 (FileBody "/tmp/tmpk3v9x2ab.mp3" "audio/mp3") [] []))) 400
   \/ is_json_answer
        (call_on_close (cleanup Scenario.headlines "/tmp/tmpk3v9x2ab.mp3")
           (set_header "X-Audio-Type" "daily-briefing"
              (Response 200 (FileBody "/tmp/tmpk3v9x2ab.mp3" "audio/mp3") [] []))) 500)
  /\ (200 = 200 <-> [cleanup Scenario.headlines "/tmp/tmpk3v9x2ab.mp3"] <> []).
Proof.
  apply (cleanup_registered_iff_audio Scenario.headlines (VDict []) Scenario.w0
           (call_on_close (cleanup Scenario.headlines "/tmp/tmpk3v9x2ab.mp3")
              (set_header "X-Audio-Type" "daily-briefing"
                 (Response 200 (FileBody "/tmp/tmpk3v9x2ab.mp3" "audio/mp3") [] [])))
           (snd (daily_briefing Scenario.headlines (VDict []) Scenario.w0))).
  right. reflexivity.
Defined.

(** ** When the provider cannot be reached *)

Lemma fetch_news_primary_fails env category region limit w :
  call_fails (primary_reply env category region limit w) = true ->
  exists e,
    fetch_news env category region limit w =
      (Ret (VList []),
       add_event (fetch_failed e)
         (add_event (EvHttpGet (top_headlines_url env category region limit) 10) w)).
Proof.
  unfold call_fails. rewrite fetch_news_run. cbv zeta.
  destruct (decoded (primary_reply env category region limit w)) as [data|e];
    [discriminate|].
  intros _. by exists e.
Qed.

(** X17: when the headlines query fails (the request or the decoding of
    its body raises), no search query is sent; a valid [/news] request
    is answered 200 "No news found" with an empty list, and a
    [/briefing] request is answered 400, in both cases after that one
    query and one printed line. *)
Theorem provider_failure_is_no_news env w :
  (forall args limit,
     parse_limit env args = Ret limit ->
     news_category args ∈ valid_categories ->
     is_Some (LANG_MAP !! news_language args) ->
     call_fails (primary_reply env (VStr (news_category args)) (VStr (news_region args))
                   (VInt limit) w) = true ->
     status_of (get_news env args w) = Some 200
     /\ payload_of (get_news env args w)
        = Some (VDict [("message", VStr "No news found"); ("articles", VList [])])
     /\ exists e,
          events_since w (snd (get_news env args w)) =
            [EvHttpGet (top_headlines_url env (VStr (news_category args))
                          (VStr (news_region args)) (VInt limit)) 10;
             fetch_failed e])
  /\ (forall d,
        call_fails (primary_reply env (briefing_category d) (briefing_region d)
                      (briefing_limit d) w) = true ->
        status_of (daily_briefing env (VDict d) w) = Some 400
        /\ payload_of (daily_briefing env (VDict d) w)
           = Some (VDict [("error", VStr "No articles available for briefing")])
        /\ exists e,
             events_since w (snd (daily_briefing env (VDict d) w)) =
               [EvHttpGet (top_headlines_url env (briefing_category d) (briefing_region d)
                             (briefing_limit d)) 10;
                fetch_failed e]).
Proof.
  split.
  - intros args limit Hlimit Hcat Hlang Hfails.
    destruct (fetch_news_primary_fails _ _ _ _ _ Hfails) as (e & Hrun).
    rewrite (get_news_after_fetch _ _ _ _ _ _ Hlimit Hcat Hlang Hrun).
    cbn [Py.truthy negb]. unfold try_except, ret.
    split; [reflexivity|]. split; [reflexivity|].
    exists e. cbn [snd]. apply events_since_two.
  - intros d Hfails.
    destruct (fetch_news_primary_fails _ _ _ _ _ Hfails) as (e & Hrun).
    rewrite daily_briefing_run. unfold bind. rewrite Hrun.
    unfold briefing_of_articles. cbn [Py.truthy negb]. unfold ret.
    split; [reflexivity|]. split; [reflexivity|].
    exists e. cbn [snd]. apply events_since_two.
Qed.

Lemma provider_failure_is_no_news_witness :
  (status_of (get_news Scenario.unreachable [("category", "health")] Scenario.w0) = Some 200
   /\ payload_of (get_news Scenario.unreachable [("category", "health")] Scenario.w0)
      = Some (VDict [("message", VStr "No news found"); ("articles", VList [])]))
  /\ status_of (daily_briefing Scenario.unreachable (VDict []) Scenario.w0) = Some 400.
Proof.
  split.
  - destruct (proj1 (provider_failure_is_no_news Scenario.unreachable Scenario.w0)
                [("category", "health")] 5 eq_refl) as (Hstatus & Hpayload & _).
    + apply in_list_spec. reflexivity.
    + by eexists.
    + reflexivity.
    + by split.
  - destruct (proj2 (provider_failure_is_no_news Scenario.unreachable Scenario.w0)
                [] eq_refl) as (Hstatus & _).
    exact Hstatus.
Defined.
